(** * Bank FD rates scraper: table extraction and the fetch cache

  A shallow embedding of [app.py].  The program is a thin layer over
  three libraries, so the development has one module per library holding
  the part of its behaviour the program relies on, followed by the
  program's own functions under their source names:

  - [Py]   : the [str] methods used ([strip], [replace], [join]);
  - [bs4]  : the parse tree, [find_all] and [get_text(strip=True)];
  - [pd]   : data frames, [dropna(how='all')], [reset_index(drop=True)],
             [empty], [to_dict('records')];
  - the network ([requests.get]) and [pd.read_html] are inputs, gathered
    in a [World] record: what they return is not decided by [app.py]. *)

From Stdlib Require Import Ascii NArith ZArith.
From stdpp Require Import base list strings gmap.

(** ** Python strings *)

Module Py.

(** [str.isspace] on one character.  A character is a code point below
    256; Python counts as white space the ranges 9-13 and 28-32 and the
    code points 133 (NEL) and 160 (NBSP). *)
Definition isspace (c : ascii) : bool :=
  let n := N_of_ascii c in
  (((9 <=? n) && (n <=? 13)) || ((28 <=? n) && (n <=? 32))
   || (n =? 133) || (n =? 160))%N.

Fixpoint lstrip (s : string) : string :=
  match s with
  | EmptyString => EmptyString
  | String c s' => if isspace c then lstrip s' else s
  end.

Fixpoint rstrip (s : string) : string :=
  match s with
  | EmptyString => EmptyString
  | String c s' =>
      match rstrip s' with
      | EmptyString => if isspace c then EmptyString else String c EmptyString
      | r => String c r
      end
  end.

(** [s.strip()] *)
Definition strip (s : string) : string := rstrip (lstrip s).

(** [s.replace(old, new)] for one-character [old] and [new]. *)
Fixpoint replace (old new : ascii) (s : string) : string :=
  match s with
  | EmptyString => EmptyString
  | String c s' =>
      String (if Ascii.eqb c old then new else c) (replace old new s')
  end.

(** [sep.join(parts)] *)
Definition join (sep : string) (parts : list string) : string :=
  String.concat sep parts.

(** [''.join(parts)] *)
Definition concat (parts : list string) : string :=
  foldr String.append EmptyString parts.

Definition nonempty (s : string) : bool :=
  match s with EmptyString => false | _ => true end.

(** The first and the last character of a string, when it has one. *)
Definition first (s : string) : option ascii :=
  match s with EmptyString => None | String c _ => Some c end.

Fixpoint last (s : string) : option ascii :=
  match s with
  | EmptyString => None
  | String c EmptyString => Some c
  | String _ s' => last s'
  end.

Definition space_at (o : option ascii) : bool :=
  match o with Some c => isspace c | None => false end.

(** A string is trimmed when neither end is white space. *)
Definition trimmed (s : string) : bool :=
  negb (space_at (first s)) && negb (space_at (last s)).

Fixpoint contains (c : ascii) (s : string) : bool :=
  match s with
  | EmptyString => false
  | String d s' => Ascii.eqb d c || contains c s'
  end.

Definition newline : ascii := ascii_of_N 10.
Definition blank : ascii := ascii_of_N 32.

End Py.

(** ** BeautifulSoup *)

Module bs4.

(** The tree [BeautifulSoup(markup, 'html.parser')] builds: text nodes and
    tags with their children.  Attributes are left out, the program never
    reads one. *)
#[warnings="-register-all"]
Inductive node : Type :=
| NavigableString (s : string)
| Tag (name : string) (contents : list node).

Definition contents (n : node) : list node :=
  match n with
  | NavigableString _ => []
  | Tag _ c => c
  end.

(** The node itself and its descendants that are tags called [name], in
    document order. *)
Fixpoint matching (name : string) (n : node) : list node :=
  match n with
  | NavigableString _ => []
  | Tag t c =>
      (if String.eqb t name then [n] else []) ++ flat_map (matching name) c
  end.

(** [x.find_all(name)], [x] given by its children: every descendant tag
    called [name], in document order, nested ones included. *)
Definition find_all (name : string) (children : list node) : list node :=
  flat_map (matching name) children.

(** The text nodes below a node, in document order. *)
Fixpoint strings (n : node) : list string :=
  match n with
  | NavigableString s => [s]
  | Tag _ c => flat_map strings c
  end.

(** [n.get_text(strip=True)]: every text node is stripped, the empty ones
    are skipped and the rest is concatenated without a separator. *)
Definition get_text_strip (n : node) : string :=
  Py.concat (List.filter Py.nonempty (map Py.strip (strings n))).

End bs4.

(** ** pandas *)

Module pd.

(** A cell of a data frame: the missing value, text, a truth value or a
    number ([Float m e] stands for the double [m * 2^e], never for NaN). *)
Inductive value : Type :=
| NaN
| Str (s : string)
| Bool (b : bool)
| Int (z : Z)
| Float (m e : Z).

#[global] Instance value_eq_dec : EqDecision value.
Proof. solve_decision. Defined.

Definition notna (v : value) : bool :=
  match v with NaN => false | _ => true end.

(** [df.columns]: a flat index of labels, the numbers [0 .. n-1] pandas
    gives the columns of a table without header row, or a [MultiIndex]
    whose entries are the tuples of header levels. *)
Inductive Columns : Type :=
| Index (labels : list string)
| RangeIndex (n : nat)
| MultiIndex (tuples : list (list string)).

(** A frame: its columns and its rows, each row with its index label. *)
Record DataFrame : Type := {
  columns : Columns;
  rows : list (nat * list value)
}.

Definition ncols (c : Columns) : nat :=
  match c with
  | Index labels => length labels
  | RangeIndex n => n
  | MultiIndex tuples => length tuples
  end.

(** The default [RangeIndex]: rows numbered from 0. *)
Definition enumerate {A : Type} (l : list A) : list (nat * A) :=
  zip (seq 0 (length l)) l.

Definition width (data : list (list string)) : nat :=
  foldr Nat.max 0 (map length data).

(** [pd.DataFrame(data, columns=cols)] for a list of lists of strings.
    pandas pads ragged rows with missing values up to the longest row and
    raises [ValueError] (here [None]) when that length differs from the
    number of column labels; an empty [data] gives an empty frame. *)
Definition new_DataFrame (data : list (list string)) (cols : list string)
  : option DataFrame :=
  if (length data =? 0) || (width data =? length cols) then
    Some {| columns := Index cols;
            rows := enumerate
                      (map (fun r => map Str r ++ replicate (length cols - length r) NaN)
                           data) |}
  else None.

(** [df.dropna(how='all')]: a row goes when all its cells are missing, so
    it stays when some cell is not; the index labels are kept. *)
Definition keeps (r : nat * list value) : bool := existsb notna r.2.

Definition dropna_all (df : DataFrame) : DataFrame :=
  {| columns := columns df; rows := List.filter keeps (rows df) |}.

(** [df.reset_index(drop=True)] *)
Definition reset_index (df : DataFrame) : DataFrame :=
  {| columns := columns df; rows := enumerate (map snd (rows df)) |}.

(** [df.empty]: some axis has length 0. *)
Definition empty (df : DataFrame) : bool :=
  (length (rows df) =? 0) || (ncols (columns df) =? 0).

(** Keys of the dictionaries [to_dict] builds: a label, a column number,
    or a tuple of levels when the columns are a [MultiIndex]. *)
Inductive key : Type :=
| Label (s : string)
| Number (i : nat)
| Levels (t : list string).

#[global] Instance key_eq_dec : EqDecision key.
Proof. solve_decision. Defined.

Definition keys (c : Columns) : list key :=
  match c with
  | Index labels => map Label labels
  | RangeIndex n => map Number (seq 0 n)
  | MultiIndex tuples => map Levels tuples
  end.

(** A Python [dict] with its insertion order: assigning to a key that is
    present replaces the value in place, a new key goes to the end. *)
Definition dict : Type := list (key * value).

Fixpoint dict_set (d : dict) (k : key) (v : value) : dict :=
  match d with
  | [] => [(k, v)]
  | (k', v') :: d' =>
      if decide (k = k') then (k', v) :: d' else (k', v') :: dict_set d' k v
  end.

Definition record_of (ks : list key) (cells : list value) : dict :=
  fold_left (fun d kv => dict_set d kv.1 kv.2) (zip ks cells) [].

(** [df.to_dict('records')] *)
Definition to_dict_records (df : DataFrame) : list dict :=
  map (fun r => record_of (keys (columns df)) r.2) (rows df).

End pd.

(** ** The program *)

Record config : Type := {
  url : string;
  table_index : nat;
  special : bool
}.

Definition BANK_CONFIG : gmap string config :=
  list_to_map
    [ ("NSB", {| url := "https://www.nsb.lk/rates-tarriffs/rupee-deposit-rates/";
                 table_index := 1; special := false |});
      ("RDB", {| url := "https://www.rdb.lk/interest-rates/";
                 table_index := 2; special := false |});
      ("SDB", {| url := "https://www.sdb.lk/en/rates?tableid=5";
                 table_index := 1; special := false |});
      ("SMIB", {| url := "https://www.smib.lk/en/normal-fd-rates";
                  table_index := 0; special := false |});
      ("HDFC", {| url := "https://www.hdfc.lk/rates-%26-tarfiffs";
                  table_index := 1; special := true |}) ].

(** *** The outside world

    What a call of [requests.get] or [pd.read_html] returns is decided by
    the network and by pandas.  [None] stands for a raised exception.
    A response is given by the tree [html.parser] builds from its body. *)

Definition document : Type := list bs4.node.

Inductive source : Type :=
| Url (u : string)
| Text (response : document).

Record World : Type := {
  pd_read_html : source -> option (list pd.DataFrame);
  requests_get : string -> option document
}.

(** What the extractors print; the arguments are the interpolated values. *)
Inductive print : Type :=
| FoundTables (n : nat) (u : string)
| TableIndexNotFound (i : nat) (u : string)
| ErrorProcessing (u : string)
| HdfcFound (n : nat)
| HdfcOutOfRange
| HdfcError.

(** *** [extract_table_from_html] *)

(** Lines 63-68: [pd.read_html(url)], and when it raises,
    [pd.read_html(requests.get(url, ...).text)]. *)
Definition read_tables (w : World) (u : string) : option (list pd.DataFrame) :=
  match pd_read_html w (Url u) with
  | Some tables => Some tables
  | None =>
      match requests_get w u with
      | Some response => pd_read_html w (Text response)
      | None => None
      end
  end.

(** Lines 76-77. *)
Definition flatten_columns (df : pd.DataFrame) : pd.DataFrame :=
  match pd.columns df with
  | pd.MultiIndex tuples =>
      {| pd.columns := pd.Index (map (fun col => Py.strip (Py.join " " col)) tuples);
         pd.rows := pd.rows df |}
  | pd.Index _ | pd.RangeIndex _ => df
  end.

Definition extract_table_from_html (w : World) (u : string) (table_index : nat)
  : list print * option pd.DataFrame :=
  match read_tables w u with
  | None => ([ErrorProcessing u], None)
  | Some tables =>
      if table_index <? length tables then
        match tables !! table_index with
        | Some df =>
            ([FoundTables (length tables) u],
             Some (pd.reset_index (pd.dropna_all (flatten_columns df))))
        | None => ([FoundTables (length tables) u; ErrorProcessing u], None)
        end
      else
        ([FoundTables (length tables) u; TableIndexNotFound table_index u], None)
  end.

(** *** [extract_hdfc_table] *)

(** Line 119, one cell. *)
Definition cell_text (cell : bs4.node) : string :=
  Py.replace Py.newline Py.blank (bs4.get_text_strip cell).

(** Lines 122-125. *)
Definition reconcile (num_columns : nat) (row : list string) : list string :=
  if length row <? num_columns then
    row ++ replicate (num_columns - length row) EmptyString
  else if num_columns <? length row then take num_columns row
  else row.

(** Line 112. *)
Definition hdfc_headers (table : bs4.node) : list string :=
  map bs4.get_text_strip (bs4.find_all "th" (bs4.contents table)).

(** The rows the loop of line 117 visits: [table.find_all('tr')[1:]]. *)
Definition body_trs (table : bs4.node) : list bs4.node :=
  tail (bs4.find_all "tr" (bs4.contents table)).

Definition row_cells (tr : bs4.node) : list string :=
  map cell_text (bs4.find_all "td" (bs4.contents tr)).

(** Lines 116-127: the loop appends one reconciled row per [tr]. *)
Definition hdfc_rows (table : bs4.node) : list (list string) :=
  let num_columns := length (hdfc_headers table) in
  fold_left (fun rows tr => rows ++ [reconcile num_columns (row_cells tr)])
            (body_trs table) [].

Definition extract_hdfc_table (w : World) (u : string) (table_index : nat)
  : list print * option pd.DataFrame :=
  match requests_get w u with
  | None => ([HdfcError], None)
  | Some soup =>
      let tables := bs4.find_all "table" soup in
      if length tables <=? table_index then
        ([HdfcFound (length tables); HdfcOutOfRange], None)
      else
        match tables !! table_index with
        | None => ([HdfcFound (length tables); HdfcError], None)
        | Some table =>
            match pd.new_DataFrame (hdfc_rows table) (hdfc_headers table) with
            | None => ([HdfcFound (length tables); HdfcError], None)
            | Some df =>
                ([HdfcFound (length tables)],
                 Some (pd.reset_index (pd.dropna_all df)))
            end
        end
  end.

(** *** [fetch_bank_data] *)

(** The messages of the JSON bodies, with their interpolated values:
    "Bank {bank_name} not found", "Successfully fetched {n} records" and
    "No data found or table extraction failed". *)
Inductive message : Type :=
| BankNotFound (bank_name : string)
| SuccessfullyFetched (n : nat)
| NoDataFound.

(** The JSON body of a response; [resp_data] is absent from error bodies. *)
Record json : Type := {
  resp_bank : string;
  resp_status : string;
  resp_message : message;
  resp_data : option (list pd.dict)
}.

(** What a view returns: [jsonify(...)], or the pair [(jsonify(...), code)]. *)
Inductive view : Type :=
| Response (body : json)
| ResponseWithCode (body : json) (code : nat).

Definition body_of (v : view) : json :=
  match v with
  | Response body => body
  | ResponseWithCode body _ => body
  end.

(** An entry of the global [fetched_data]. *)
Record entry : Type := {
  data : list pd.dict;
  timestamp : string
}.

(** Lines 178-181. *)
Definition extract (w : World) (bank_name : string) (c : config)
  : list print * option pd.DataFrame :=
  if special c && String.eqb bank_name "HDFC" then
    extract_hdfc_table w (url c) (table_index c)
  else
    extract_table_from_html w (url c) (table_index c).

Definition error_body (bank_name : string) (m : message) : json :=
  {| resp_bank := bank_name; resp_status := "error";
     resp_message := m; resp_data := None |}.

(** [fetched_data] is threaded through; [now] is what
    [datetime.now().isoformat()] gives during the call.  Both extractors
    catch every exception themselves and the library calls on the success
    path are total here, so the handler of lines 206-211 has no case. *)
Definition fetch_bank_data (w : World) (now : string)
    (fetched_data : gmap string entry) (bank_name : string)
  : view * gmap string entry :=
  match BANK_CONFIG !! bank_name with
  | None =>
      (ResponseWithCode (error_body bank_name (BankNotFound bank_name)) 404,
       fetched_data)
  | Some c =>
      match (extract w bank_name c).2 with
      | Some df =>
          if negb (pd.empty df) then
            let records := pd.to_dict_records df in
            (Response {| resp_bank := bank_name; resp_status := "success";
                         resp_message := SuccessfullyFetched (length records);
                         resp_data := Some records |},
             <[bank_name := {| data := records; timestamp := now |}]> fetched_data)
          else (Response (error_body bank_name NoDataFound), fetched_data)
      | None => (Response (error_body bank_name NoDataFound), fetched_data)
      end
  end.

(** *** [fetch_multiple_banks] *)

(** [result.get_json()]: a [Response] has the method, a pair has not and the
    call raises [AttributeError] ([None]). *)
Definition get_json (v : view) : option json :=
  match v with
  | Response body => Some body
  | ResponseWithCode _ _ => None
  end.

(** The loop of lines 221-224.  [clock i] is the time during the [i]-th
    iteration.  [None] is an exception leaving the view. *)
Fixpoint fetch_loop (w : World) (clock : nat -> string) (i : nat)
    (fetched_data : gmap string entry) (results : gmap string json)
    (banks : list string)
  : option (gmap string json) * gmap string entry :=
  match banks with
  | [] => (Some results, fetched_data)
  | bank :: rest =>
      match BANK_CONFIG !! bank with
      | None => fetch_loop w clock (S i) fetched_data results rest
      | Some _ =>
          let '(result, fetched_data') :=
            fetch_bank_data w (clock i) fetched_data bank in
          match get_json result with
          | Some body =>
              fetch_loop w clock (S i) fetched_data' (<[bank := body]> results) rest
          | None => (None, fetched_data')
          end
      end
  end.

Record summary : Type := {
  requested : nat;
  successful : nat;
  failed : nat
}.

Definition count_status (s : string) (results : gmap string json) : nat :=
  length (List.filter (fun kv => String.eqb (resp_status kv.2) s)
                      (map_to_list results)).

Definition fetch_multiple_banks (w : World) (clock : nat -> string)
    (fetched_data : gmap string entry) (banks : list string)
  : option (gmap string json * summary) * gmap string entry :=
  match fetch_loop w clock 0 fetched_data ∅ banks with
  | (Some results, fetched_data') =>
      (Some (results, {| requested := length banks;
                         successful := count_status "success" results;
                         failed := count_status "error" results |}),
       fetched_data')
  | (None, fetched_data') => (None, fetched_data')
  end.

(** ** Definitions used to state the properties *)

(** The records an extractor hands to its caller, when it returns a frame. *)
Definition records (r : list print * option pd.DataFrame) : option (list pd.dict) :=
  pd.to_dict_records <$> r.2.

(** The lines an extractor prints on its failure paths. *)
Definition is_failure (p : print) : bool :=
  match p with
  | TableIndexNotFound _ _ | ErrorProcessing _ | HdfcOutOfRange | HdfcError => true
  | FoundTables _ _ | HdfcFound _ => false
  end.

(** Lines 121-131 as one step on a matrix of cell texts under the labels
    [headers]: reconcile the widths, build the frame, drop, re-index. *)
Definition normalize (headers : list string) (matrix : list (list string))
  : option pd.DataFrame :=
  match pd.new_DataFrame (map (reconcile (length headers)) matrix) headers with
  | Some df => Some (pd.reset_index (pd.dropna_all df))
  | None => None
  end.

(** The cell texts of a frame of strings, row by row. *)
Definition text_of (v : pd.value) : string :=
  match v with pd.Str s => s | _ => EmptyString end.

Definition texts (df : pd.DataFrame) : list (list string) :=
  map (fun r => map text_of r.2) (pd.rows df).








(** ** Sample pages, frames and worlds *)

Module Sample.

Definition th (s : string) : bs4.node := bs4.Tag "th" [bs4.NavigableString s].
Definition td (s : string) : bs4.node := bs4.Tag "td" [bs4.NavigableString s].
Definition tr (cells : list bs4.node) : bs4.node := bs4.Tag "tr" cells.
Definition table (trs : list bs4.node) : bs4.node := bs4.Tag "table" trs.
Definition page (tables : list bs4.node) : document :=
  [bs4.Tag "html" [bs4.Tag "body" tables]].

Definition hdfc_url : string := "https://www.hdfc.lk/rates-%26-tarfiffs".
Definition nsb_url : string := "https://www.nsb.lk/rates-tarriffs/rupee-deposit-rates/".
Definition smib_url : string := "https://www.smib.lk/en/normal-fd-rates".

(** A world that serves one page at one address; pandas is left out. *)
Definition serving (u : string) (doc : document) : World :=
  {| pd_read_html := fun _ => None;
     requests_get := fun u' => if String.eqb u' u then Some doc else None |}.

(** A world in which every request and every [read_html] raises. *)
Definition offline : World :=
  {| pd_read_html := fun _ => None; requests_get := fun _ => None |}.

(** A world in which [pd.read_html(u)] returns [tables]. *)
Definition reading (u : string) (tables : list pd.DataFrame) : World :=
  {| pd_read_html := fun s => match s with
                              | Url u' => if String.eqb u' u then Some tables else None
                              | Text _ => None
                              end;
     requests_get := fun _ => None |}.

Definition menu_table : bs4.node := table [tr [td "Home"; td "Rates"]].

(** Four columns; a row of two cells, a row of six, a row of four whose
    first cell holds a line break between blanks. *)
Definition rates_table : bs4.node :=
  table
    [ tr [th "Period"; th "Monthly"; th "Annual"; th "Maturity"];
      tr [td "3 months"; td "7.00"];
      tr [td "6 months"; td "7.25"; td "7.50"; td "7.75"; td "8.00"; td "8.25"];
      tr [td (" 12" +:+ String Py.newline "months "); td "8.00"; td "8.25"; td "8.50"] ].

Definition rates_page : document := page [menu_table; rates_table].

(** A table with a row of empty cells and a row without cells. *)
Definition gappy_table : bs4.node :=
  table
    [ tr [th "Period"; th "Rate"];
      tr [td ""; td " "];
      tr [];
      tr [td "12 months"; td "8.00"] ].

Definition gappy_page : document := page [menu_table; gappy_table].

(** A table that has its header row and no other row. *)
Definition header_only_table : bs4.node := table [tr [th "Period"; th "Rate"]].

Definition header_only_page : document := page [menu_table; header_only_table].

(** The frame pandas returns for a table whose header row "Rate", spanning
    two columns, stands over the header row "1yr", "2yr". *)
Definition composite_frame : pd.DataFrame :=
  {| pd.columns := pd.MultiIndex [["Rate"; "1yr"]; ["Rate"; "2yr"]];
     pd.rows := [(0, [pd.Float 15 (-1); pd.Float 8 0])] |}.


Definition months_frame : pd.DataFrame :=
  {| pd.columns := pd.Index ["Months"];
     pd.rows := [(0, [pd.Int 12]); (1, [pd.Int 24])] |}.



(** A table of text cells only, and the frame pandas returns for it. *)
Definition plans_table : bs4.node :=
  table [tr [th "Plan"; th "Payout"];
         tr [td "Senior"; td "Monthly"];
         tr [td "Regular"; td "At maturity"]].

Definition plans_frame : pd.DataFrame :=
  {| pd.columns := pd.Index ["Plan"; "Payout"];
     pd.rows := [(0, [pd.Str "Senior"; pd.Str "Monthly"]);
                 (1, [pd.Str "Regular"; pd.Str "At maturity"])] |}.



(** A frame with a row of missing values between two rows of data. *)
Definition sparse_frame : pd.DataFrame :=
  {| pd.columns := pd.Index ["Period"; "Rate"];
     pd.rows := [(0, [pd.Str "3 months"; pd.Float 7 0]);
                 (1, [pd.NaN; pd.NaN]);
                 (2, [pd.Str "6 months"; pd.NaN])] |}.

(** NSB and SMIB are read by pandas, the request to HDFC fails. *)
Definition batch_world : World :=
  {| pd_read_html := fun s => match s with
                              | Url u =>
                                  if String.eqb u nsb_url
                                  then Some [months_frame; sparse_frame]
                                  else if String.eqb u smib_url
                                  then Some [plans_frame]
                                  else None
                              | Text _ => None
                              end;
     requests_get := fun _ => None |}.

(** A title row, then the header row, then a row of data. *)
Definition title_row : bs4.node := tr [td "Special rates"].
Definition header_row : bs4.node := tr [th "Period"; th "Rate"].
Definition data_row : bs4.node := tr [td "12 months"; td "8.00"].

Definition titled_table : bs4.node := table [title_row; header_row; data_row].

Definition titled_page : document := page [menu_table; titled_table].

(** A cell whose text comes in three pieces, the middle one in bold. *)
Definition mixed_cell : bs4.node :=
  bs4.Tag "td" [bs4.NavigableString "Up to ";
                bs4.Tag "b" [bs4.NavigableString "12"];
                bs4.NavigableString " months"].

Definition noon : string := "2024-01-01T12:00:00".

(** A table whose two header cells carry the same text. *)
Definition twin_table : bs4.node :=
  table [tr [th "Rate"; th "Rate"]; tr [td "7.00"; td "7.50"]].

Definition twin_page : document := page [menu_table; twin_table].

(** The stored results after NSB was fetched in [batch_world]. *)
Definition nsb_entry : entry :=
  {| data := [[(pd.Label "Period", pd.Str "3 months"); (pd.Label "Rate", pd.Float 7 0)];
              [(pd.Label "Period", pd.Str "6 months"); (pd.Label "Rate", pd.NaN)]];
     timestamp := noon |}.

Definition nsb_stored : gmap string entry := {[ "NSB" := nsb_entry ]}.

(** A page without any table: the request succeeds, and pandas raises
    ("No tables found") on the address and on the body alike. *)
Definition tableless_page : document :=
  page [bs4.Tag "p" [bs4.NavigableString "Rates are being updated."]].

Definition tableless_world : World :=
  {| pd_read_html := fun _ => None;
     requests_get := fun u => if String.eqb u smib_url
                              then Some tableless_page else None |}.

(** pandas fails to read the address itself, the request succeeds and
    pandas reads the table of the body. *)
Definition fallback_world : World :=
  {| pd_read_html := fun s => match s with
                              | Url _ => None
                              | Text _ => Some [plans_frame]
                              end;
     requests_get := fun u => if String.eqb u smib_url
                              then Some (page [plans_table]) else None |}.

End Sample.

(** ** The other views *)

(** [list(BANK_CONFIG.keys())]: the keys in the order of the literal. *)
Definition bank_names : list string := ["NSB"; "RDB"; "SDB"; "SMIB"; "HDFC"].

(** *** [get_status] *)

(** One entry of the [status] dictionary: "fetched", "timestamp" ([None]
    when the bank was not fetched) and "record_count". *)
Record bank_status : Type := {
  st_fetched : bool;
  st_timestamp : option string;
  st_record_count : nat
}.

(** Lines 280-291. *)
Definition status_entry (fetched_data : gmap string entry) (bank : string)
  : bank_status :=
  match fetched_data !! bank with
  | Some e => {| st_fetched := true; st_timestamp := Some (timestamp e);
                 st_record_count := length (data e) |}
  | None => {| st_fetched := false; st_timestamp := None; st_record_count := 0 |}
  end.

Record status_report : Type := {
  status : gmap string bank_status;
  total_banks : nat;
  fetched_banks : nat
}.

(** The loop of line 279 assigns one entry per key of [BANK_CONFIG].  The
    dictionary becomes a JSON object of the response, in which the order
    of the keys says nothing ([jsonify] writes them sorted): it is a map
    here.  Line 296 counts the entries that are marked as fetched. *)
Definition get_status (fetched_data : gmap string entry) : status_report :=
  let status :=
    map_imap (fun bank _ => Some (status_entry fetched_data bank)) BANK_CONFIG in
  {| status := status;
     total_banks := size BANK_CONFIG;
     fetched_banks :=
       size (filter (fun kv : string * bank_status => st_fetched kv.2 = true) status) |}.

(** *** [clear_data] *)

Definition clear_data (fetched_data : gmap string entry) : gmap string entry := ∅.

(** *** [export_to_excel]

    The workbook itself is not modelled; what is modelled is the guard of
    line 238 and, for the loop of lines 249-254, the calls of [to_excel] it
    makes: one per stored bank whose data is not empty, with the sheet
    name and the records handed over.  Python visits the banks in the
    order they were first stored, which the map does not keep: the calls
    are listed in the order of the map, and the properties below do not
    depend on the order. *)

(** [s[:n]] *)
Fixpoint str_prefix (n : nat) (s : string) : string :=
  match n, s with
  | S n', String c s' => String c (str_prefix n' s')
  | _, _ => EmptyString
  end.

(** Line 253. *)
Definition sheet_name (bank_name : string) : string := str_prefix 31 bank_name.

(** Line 238: [if not fetched_data]. *)
Definition nothing_to_export (fetched_data : gmap string entry) : bool :=
  bool_decide (fetched_data = ∅).

Definition export_sheets (fetched_data : gmap string entry)
  : list (string * list pd.dict) :=
  omap (fun kv : string * entry =>
          match data kv.2 with
          | [] => None
          | _ :: _ => Some (sheet_name kv.1, data kv.2)
          end)
       (map_to_list fetched_data).

(** ** Further definitions used to state properties *)

(** What [fetched_data] holds at any time: entries for configured banks
    only, none with an empty list of records. *)
Definition store_ok (fetched_data : gmap string entry) : Prop :=
  forall (bank : string) (e : entry),
    fetched_data !! bank = Some e ->
    is_Some (BANK_CONFIG !! bank) /\ data e <> [].

(** Calling [fetch_bank_data] for each name of a list in turn, the [i]-th
    call at time [clock i], and keeping the stored results only. *)
Fixpoint one_by_one (w : World) (clock : nat -> string) (i : nat)
    (fetched_data : gmap string entry) (banks : list string)
  : gmap string entry :=
  match banks with
  | [] => fetched_data
  | bank :: rest =>
      one_by_one w clock (S i) (fetch_bank_data w (clock i) fetched_data bank).2 rest
  end.

(** The keys a dictionary gets when the keys [ks] are assigned in turn,
    starting from the keys [seen]: a key already there keeps its place. *)
Definition add_key (seen : list pd.key) (k : pd.key) : list pd.key :=
  if bool_decide (k ∈ seen) then seen else seen ++ [k].

(** * Properties *)

(** ** Python strings *)

Lemma lstrip_first (s : string) : Py.space_at (Py.first (Py.lstrip s)) = false.
Proof.
  induction s as [|c s IH]; simpl; [done|].
  destruct (Py.isspace c) eqn:E; [done|]. simpl. done.
Qed.

Lemma rstrip_last (s : string) : Py.space_at (Py.last (Py.rstrip s)) = false.
Proof.
  induction s as [|c s IH]; simpl; [done|].
  destruct (Py.rstrip s) as [|d r] eqn:E.
  - destruct (Py.isspace c) eqn:Ec; simpl; [done|]. by rewrite Ec.
  - simpl in *. done.
Qed.

Lemma rstrip_first (s : string) :
  Py.space_at (Py.first s) = false ->
  Py.space_at (Py.first (Py.rstrip s)) = false.
Proof.
  destruct s as [|c s]; simpl; [done|]. intros Hc.
  destruct (Py.rstrip s); [rewrite Hc|]; simpl; done.
Qed.

Lemma strip_trimmed (s : string) : Py.trimmed (Py.strip s) = true.
Proof.
  unfold Py.trimmed, Py.strip.
  rewrite rstrip_first by apply lstrip_first. by rewrite rstrip_last.
Qed.

Lemma append_empty_r (s : string) : s +:+ EmptyString = s.
Proof.
  induction s as [|c s IH]; [done|].
  change (String c s +:+ EmptyString) with (String c (s +:+ EmptyString)).
  by f_equal.
Qed.

Lemma first_append (a b : string) :
  Py.nonempty a = true -> Py.first (a +:+ b) = Py.first a.
Proof. destruct a; [done|]. done. Qed.

Lemma last_append (a b : string) :
  Py.last (a +:+ b) = if Py.nonempty b then Py.last b else Py.last a.
Proof.
  destruct b as [|d b]; simpl; [by rewrite append_empty_r|].
  induction a as [|c a IH]; [done|].
  change (String c a +:+ String d b) with (String c (a +:+ String d b)).
  destruct a as [|c' a]; [done|].
  change (Py.last (String c (String c' a +:+ String d b)))
    with (Py.last (String c' a +:+ String d b)).
  exact IH.
Qed.

Lemma concat_first (parts : list string) :
  Forall (fun s => Py.nonempty s = true /\ Py.trimmed s = true) parts ->
  Py.space_at (Py.first (Py.concat parts)) = false.
Proof.
  intros H. destruct H as [|p ps [Hn Ht] _]; simpl; [done|].
  rewrite first_append by done.
  unfold Py.trimmed in Ht. apply andb_prop in Ht as [Ht _].
  by apply negb_true_iff in Ht.
Qed.

Lemma concat_last (parts : list string) :
  Forall (fun s => Py.nonempty s = true /\ Py.trimmed s = true) parts ->
  Py.space_at (Py.last (Py.concat parts)) = false.
Proof.
  induction 1 as [|p ps [Hn Ht] _ IH]; simpl; [done|].
  rewrite last_append. destruct (Py.nonempty (Py.concat ps)); [done|].
  unfold Py.trimmed in Ht. apply andb_prop in Ht as [_ Ht].
  by apply negb_true_iff in Ht.
Qed.

Lemma stripped_parts (l : list string) :
  Forall (fun s => Py.nonempty s = true /\ Py.trimmed s = true)
         (List.filter Py.nonempty (map Py.strip l)).
Proof.
  induction l as [|a l IH]; simpl; [constructor|].
  destruct (Py.nonempty (Py.strip a)) eqn:E; [|done].
  constructor; [|done]. split; [done | apply strip_trimmed].
Qed.

Lemma replace_first (old new : ascii) (s : string) :
  Py.isspace old = true ->
  Py.space_at (Py.first s) = false ->
  Py.space_at (Py.first (Py.replace old new s)) = false.
Proof.
  intros Ho. destruct s as [|c s]; simpl; [done|]. intros Hc.
  destruct (Ascii.eqb c old) eqn:E; [|done].
  apply Ascii.eqb_eq in E. congruence.
Qed.

Lemma replace_last (old new : ascii) (s : string) :
  Py.isspace old = true ->
  Py.space_at (Py.last s) = false ->
  Py.space_at (Py.last (Py.replace old new s)) = false.
Proof.
  intros Ho. induction s as [|c s IH]; simpl; [done|].
  destruct s as [|d s]; simpl in *.
  - intros Hc. destruct (Ascii.eqb c old) eqn:E; [|done].
    apply Ascii.eqb_eq in E. congruence.
  - done.
Qed.

Lemma replace_contains (old new : ascii) (s : string) :
  Ascii.eqb new old = false ->
  Py.contains old (Py.replace old new s) = false.
Proof.
  intros Hne. induction s as [|c s IH]; simpl; [done|].
  rewrite IH, orb_false_r.
  destruct (Ascii.eqb c old) eqn:E; done.
Qed.

(** ** BeautifulSoup *)

Lemma get_text_strip_trimmed (n : bs4.node) :
  Py.trimmed (bs4.get_text_strip n) = true.
Proof.
  unfold Py.trimmed, bs4.get_text_strip.
  rewrite concat_first, concat_last by apply stripped_parts. done.
Qed.

Lemma get_text_strip_single (name s : string) :
  bs4.get_text_strip (bs4.Tag name [bs4.NavigableString s]) = Py.strip s.
Proof.
  unfold bs4.get_text_strip. simpl.
  destruct (Py.strip s) eqn:E; simpl; [done|].
  by rewrite append_empty_r.
Qed.

Lemma cell_text_trimmed (cell : bs4.node) : Py.trimmed (cell_text cell) = true.
Proof.
  pose proof (get_text_strip_trimmed cell) as H.
  unfold Py.trimmed in *. apply andb_prop in H as [H1 H2].
  apply negb_true_iff in H1, H2. unfold cell_text.
  rewrite replace_first, replace_last by done. done.
Qed.

Lemma cell_text_one_line (cell : bs4.node) :
  Py.contains Py.newline (cell_text cell) = false.
Proof. unfold cell_text. by apply replace_contains. Qed.

(** ** Row widths in the structural parser *)

Lemma reconcile_length (n : nat) (row : list string) :
  length (reconcile n row) = n.
Proof.
  unfold reconcile.
  destruct (Nat.ltb_spec (length row) n); [|destruct (Nat.ltb_spec n (length row))].
  - rewrite length_app, length_replicate. lia.
  - rewrite length_take. lia.
  - lia.
Qed.



Lemma reconcile_exact (n : nat) (row : list string) :
  length row = n -> reconcile n row = row.
Proof.
  intros H. unfold reconcile.
  destruct (Nat.ltb_spec (length row) n); [lia|].
  destruct (Nat.ltb_spec n (length row)); [lia | done].
Qed.

Lemma fold_left_snoc {A B : Type} (f : A -> B) (l : list A) (init : list B) :
  fold_left (fun acc x => acc ++ [f x]) l init = init ++ map f l.
Proof.
  revert init. induction l as [|x l IH]; intros init; simpl.
  - by rewrite app_nil_r.
  - rewrite IH, <- app_assoc. done.
Qed.

Lemma hdfc_rows_map (table : bs4.node) :
  hdfc_rows table
  = map (fun tr => reconcile (length (hdfc_headers table)) (row_cells tr))
        (body_trs table).
Proof. unfold hdfc_rows. by rewrite fold_left_snoc. Qed.

Lemma hdfc_rows_width (table : bs4.node) :
  Forall (fun row => length row = length (hdfc_headers table)) (hdfc_rows table).
Proof.
  rewrite hdfc_rows_map. apply Forall_map, Forall_true.
  intros tr. apply reconcile_length.
Qed.

(** A row of six cells under four header cells: the first four are kept. *)
Example rates_long_row :
  hdfc_rows Sample.rates_table !! 1 = Some ["6 months"; "7.25"; "7.50"; "7.75"].
Proof. reflexivity. Qed.

(** ** The frame of the structural parser *)

Lemma width_uniform (data : list (list string)) (n : nat) :
  Forall (fun r => length r = n) data -> data <> [] -> pd.width data = n.
Proof.
  unfold pd.width. induction 1 as [|r data Hr Hdata IH]; [done|]. intros _.
  simpl. destruct data as [|r' data'].
  - simpl. lia.
  - rewrite IH by done. lia.
Qed.

Lemma new_DataFrame_uniform (data : list (list string)) (cols : list string) :
  Forall (fun r => length r = length cols) data ->
  pd.new_DataFrame data cols
  = Some {| pd.columns := pd.Index cols;
            pd.rows := pd.enumerate (map (map pd.Str) data) |}.
Proof.
  intros H. unfold pd.new_DataFrame.
  assert ((length data =? 0) || (pd.width data =? length cols) = true) as ->.
  { destruct data as [|r data]; [done|].
    rewrite (width_uniform _ _ H) by done. rewrite Nat.eqb_refl. apply orb_true_r. }
  do 3 f_equal. apply map_ext_Forall.
  eapply Forall_impl; [exact H|]. intros r Hr. simpl in *.
  rewrite Hr, Nat.sub_diag. apply app_nil_r.
Qed.

Lemma enumerate_snd {A : Type} (l : list A) : map snd (pd.enumerate l) = l.
Proof. unfold pd.enumerate. apply snd_zip. rewrite length_seq. done. Qed.

Lemma hdfc_frame (table : bs4.node) :
  pd.new_DataFrame (hdfc_rows table) (hdfc_headers table)
  = Some {| pd.columns := pd.Index (hdfc_headers table);
            pd.rows := pd.enumerate (map (map pd.Str) (hdfc_rows table)) |}.
Proof. apply new_DataFrame_uniform, hdfc_rows_width. Qed.

Lemma extract_hdfc_table_selected (w : World) (u : string) (pos : nat)
    (soup : document) (table : bs4.node) :
  requests_get w u = Some soup ->
  bs4.find_all "table" soup !! pos = Some table ->
  extract_hdfc_table w u pos
  = ([HdfcFound (length (bs4.find_all "table" soup))],
     Some (pd.reset_index (pd.dropna_all
             {| pd.columns := pd.Index (hdfc_headers table);
                pd.rows := pd.enumerate (map (map pd.Str) (hdfc_rows table)) |}))).
Proof.
  intros Hget Hpos. unfold extract_hdfc_table. rewrite Hget. simpl.
  pose proof (lookup_lt_Some _ _ _ Hpos) as Hlt.
  destruct (Nat.leb_spec (length (bs4.find_all "table" soup)) pos); [lia|].
  rewrite Hpos, hdfc_frame. done.
Qed.

(** C6, as the program has it: for the table the structural parser selects,
    the labels of the frame are the stripped texts of all the [th] cells of
    the table, in document order, and their number is the width every row
    is brought to; the rows are those of the [tr] elements after the first
    one, wherever the [th] cells are, each row holding the texts of its
    [td] cells.  The text of a cell is what [get_text(strip=True)] gives
    (the pieces of text of the cell, each stripped, the empty ones left
    out, put together without a separator) with every line break replaced
    by one blank: it neither starts nor ends with white space and holds no
    line break, and for a cell that holds one piece of text it is that
    text stripped, with its line breaks replaced. *)
Theorem C6_structural_frame (w : World) (u : string) (pos : nat)
    (soup : document) (table : bs4.node) :
  requests_get w u = Some soup ->
  bs4.find_all "table" soup !! pos = Some table ->
  exists df : pd.DataFrame,
    pd.new_DataFrame (hdfc_rows table) (hdfc_headers table) = Some df /\
    (extract_hdfc_table w u pos).2 = Some (pd.reset_index (pd.dropna_all df)) /\
    pd.columns df
    = pd.Index (map bs4.get_text_strip (bs4.find_all "th" (bs4.contents table))) /\
    map snd (pd.rows df)
    = map (fun tr =>
             map pd.Str
               (reconcile (length (bs4.find_all "th" (bs4.contents table)))
                  (map cell_text (bs4.find_all "td" (bs4.contents tr)))))
          (tail (bs4.find_all "tr" (bs4.contents table))) /\
    (forall cell : bs4.node,
        cell_text cell = Py.replace Py.newline Py.blank (bs4.get_text_strip cell) /\
        Py.trimmed (cell_text cell) = true /\
        Py.contains Py.newline (cell_text cell) = false) /\
    (forall name s : string,
        cell_text (bs4.Tag name [bs4.NavigableString s])
        = Py.replace Py.newline Py.blank (Py.strip s)).
Proof.
  intros Hget Hpos. eexists. split; [apply hdfc_frame|].
  split; [by rewrite (extract_hdfc_table_selected _ _ _ _ _ Hget Hpos)|].
  split; [done|]. split.
  - simpl. rewrite enumerate_snd, hdfc_rows_map, map_map.
    unfold hdfc_headers, body_trs, row_cells. by rewrite length_map.
  - split.
    + intros cell. split; [done|].
      split; [apply cell_text_trimmed | apply cell_text_one_line].
    + intros name s. unfold cell_text. by rewrite get_text_strip_single.
Qed.

(** The second table of the sample page: its four labels, and the text of
    the cell whose markup holds a line break between blanks. *)
Lemma C6_structural_frame_witness :
  exists df : pd.DataFrame,
    (extract_hdfc_table (Sample.serving Sample.hdfc_url Sample.rates_page)
                        Sample.hdfc_url 1).2
    = Some (pd.reset_index (pd.dropna_all df)) /\
    pd.columns df = pd.Index ["Period"; "Monthly"; "Annual"; "Maturity"] /\
    cell_text (Sample.td (" 12" +:+ String Py.newline "months ")) = "12 months".
Proof.
  destruct (C6_structural_frame
              (Sample.serving Sample.hdfc_url Sample.rates_page)
              Sample.hdfc_url 1 Sample.rates_page Sample.rates_table
              eq_refl eq_refl)
    as (df & _ & Hres & Hcols & _ & _ & Hone).
  exists df. split; [exact Hres|]. split; [exact Hcols|].
  unfold Sample.td. rewrite Hone. reflexivity.
Defined.

(** C6, as stated, fails.  The table has a title row, then the row of its
    header cells, then a row of data.  The rows that remain once the header
    cells are set aside are the title row and the data row; the program
    takes the rows after the first: the title row, which holds a data cell
    and no header cell, gives no row of the frame, and the row of the
    header cells gives a row of empty strings.  Besides, the text of a cell
    in several pieces is not its text trimmed: the blanks between the
    pieces go as well. *)
Lemma C6_counterexample :
  bs4.find_all "tr" (bs4.contents Sample.titled_table)
  = [Sample.title_row; Sample.header_row; Sample.data_row] /\
  bs4.find_all "th" (bs4.contents Sample.title_row) = [] /\
  row_cells Sample.title_row = ["Special rates"] /\
  body_trs Sample.titled_table = [Sample.header_row; Sample.data_row] /\
  body_trs Sample.titled_table
  <> List.filter (fun tr => length (bs4.find_all "th" (bs4.contents tr)) =? 0)
                 (bs4.find_all "tr" (bs4.contents Sample.titled_table)) /\
  (extract_hdfc_table (Sample.serving Sample.hdfc_url Sample.titled_page)
                      Sample.hdfc_url 1).2
  = Some {| pd.columns := pd.Index ["Period"; "Rate"];
            pd.rows := [(0, [pd.Str ""; pd.Str ""]);
                        (1, [pd.Str "12 months"; pd.Str "8.00"])] |} /\
  Py.strip (Py.concat (bs4.strings Sample.mixed_cell)) = "Up to 12 months" /\
  cell_text Sample.mixed_cell = "Up to12months".
Proof.
  repeat split; try reflexivity.
  intros H. vm_compute in H. discriminate H.
Qed.

(** ** A table position out of range *)

(** C2, as the program has it: when the requested position is not below
    the number of tables found (equal to it included), the generic
    parser, whichever of its two reads succeeded, and the structural
    parser both print their "not found" line and return [None]: no frame,
    and no exception leaves them.  [None] is the one failure value of the
    program, the value a failed request gives as well.  When pandas finds
    no table at all it raises, and the generic parser returns [None] from
    its handler, having printed the line of the handler. *)
Theorem C2_position_out_of_range (w : World) (u : string) (pos : nat) :
  (forall tables : list pd.DataFrame,
      read_tables w u = Some tables ->
      length tables <= pos ->
      extract_table_from_html w u pos
      = ([FoundTables (length tables) u; TableIndexNotFound pos u], None)) /\
  (forall soup : document,
      requests_get w u = Some soup ->
      length (bs4.find_all "table" soup) <= pos ->
      extract_hdfc_table w u pos
      = ([HdfcFound (length (bs4.find_all "table" soup)); HdfcOutOfRange], None)) /\
  (read_tables w u = None ->
   extract_table_from_html w u pos = ([ErrorProcessing u], None)).
Proof.
  split; [|split].
  - intros tables Hread Hle. unfold extract_table_from_html. rewrite Hread.
    destruct (Nat.ltb_spec pos (length tables)); [lia | done].
  - intros soup Hget Hle. unfold extract_hdfc_table. rewrite Hget. simpl.
    destruct (Nat.leb_spec (length (bs4.find_all "table" soup)) pos); [done | lia].
  - intros Hread. unfold extract_table_from_html. by rewrite Hread.
Qed.

(** Position 1 of a page pandas reads one table from, and position 2 of a
    page with two [table] elements: both are the number of tables. *)
Lemma C2_position_out_of_range_witness :
  (extract_table_from_html (Sample.reading Sample.nsb_url [Sample.months_frame])
                           Sample.nsb_url 1).2 = None /\
  (extract_hdfc_table (Sample.serving Sample.hdfc_url Sample.rates_page)
                      Sample.hdfc_url 2).2 = None.
Proof.
  split.
  - rewrite (proj1 (C2_position_out_of_range
                      (Sample.reading Sample.nsb_url [Sample.months_frame])
                      Sample.nsb_url 1) [Sample.months_frame] eq_refl);
      [reflexivity | simpl; lia].
  - rewrite (proj1 (proj2 (C2_position_out_of_range
                             (Sample.serving Sample.hdfc_url Sample.rates_page)
                             Sample.hdfc_url 2)) Sample.rates_page eq_refl);
      [reflexivity | vm_compute; lia].
Defined.

(** C2, as stated, fails: the parsers have no failure of its own kind for
    a position out of range.  With position 1 of one table read by pandas,
    and with position 2 of a page of two tables, each parser returns what
    it returns when the request itself fails.  On a page without any
    table pandas raises, and the generic parser goes through its handler,
    not through its "not found" branch.  The caller answers the three in
    one way. *)
Lemma C2_counterexample :
  (extract_table_from_html (Sample.reading Sample.nsb_url [Sample.months_frame])
                           Sample.nsb_url 1).2
  = (extract_table_from_html Sample.offline Sample.nsb_url 1).2 /\
  (extract_hdfc_table (Sample.serving Sample.hdfc_url Sample.rates_page)
                      Sample.hdfc_url 2).2
  = (extract_hdfc_table Sample.offline Sample.hdfc_url 2).2 /\
  bs4.find_all "table" Sample.tableless_page = [] /\
  extract_table_from_html Sample.tableless_world Sample.smib_url 0
  = ([ErrorProcessing Sample.smib_url], None) /\
  (fetch_bank_data Sample.tableless_world Sample.noon ∅ "SMIB").1
  = (fetch_bank_data Sample.offline Sample.noon ∅ "SMIB").1 /\
  (fetch_bank_data (Sample.serving Sample.hdfc_url (Sample.page [Sample.menu_table]))
                   Sample.noon ∅ "HDFC").1
  = (fetch_bank_data Sample.offline Sample.noon ∅ "HDFC").1.
Proof. repeat split; reflexivity. Qed.

(** ** Dropping rows *)

Lemma dropna_all_keeps (df : pd.DataFrame) (r : nat * list pd.value) :
  r ∈ pd.rows (pd.dropna_all df)
  <-> r ∈ pd.rows df /\ exists v : pd.value, v ∈ r.2 /\ v <> pd.NaN.
Proof.
  unfold pd.dropna_all. simpl.
  rewrite !list_elem_of_In, List.filter_In. unfold pd.keeps.
  rewrite existsb_exists. split.
  - intros [Hin (v & Hv & Hnot)]. split; [done|]. exists v.
    split; [by apply list_elem_of_In|]. by destruct v.
  - intros [Hin (v & Hv & Hnot)]. split; [done|]. exists v.
    split; [by apply list_elem_of_In|]. by destruct v.
Qed.

Lemma dropna_all_count (df : pd.DataFrame) :
  length (pd.rows (pd.dropna_all df))
  + length (List.filter (fun r => negb (pd.keeps r)) (pd.rows df))
  = length (pd.rows df).
Proof.
  unfold pd.dropna_all. simpl.
  induction (pd.rows df) as [|r l IH]; simpl; [done|].
  destruct (pd.keeps r); simpl; lia.
Qed.

Lemma keeps_strings (r : list string) (i : nat) :
  pd.keeps (i, map pd.Str r) = negb (length r =? 0).
Proof. unfold pd.keeps. by destruct r. Qed.

(** A frame of rows with missing values: the row whose cells are all
    missing goes, the others are numbered again from 0. *)
Example sparse_frame_cleaned :
  pd.rows (pd.reset_index (pd.dropna_all Sample.sparse_frame))
  = [(0, [pd.Str "3 months"; pd.Float 7 0]); (1, [pd.Str "6 months"; pd.NaN])].
Proof. reflexivity. Qed.

(** C3: at the failing input.  The second table of the page has, after its
    header row, a row of two blank cells, a row without cells and a row of
    data; the structural parser hands over three records, the first two
    with every value the empty string: no row was dropped. *)
Theorem C3_structural_keeps_blank_rows :
  records (extract_hdfc_table (Sample.serving Sample.hdfc_url Sample.gappy_page)
                              Sample.hdfc_url 1)
  = Some [ [(pd.Label "Period", pd.Str ""); (pd.Label "Rate", pd.Str "")];
           [(pd.Label "Period", pd.Str ""); (pd.Label "Rate", pd.Str "")];
           [(pd.Label "Period", pd.Str "12 months"); (pd.Label "Rate", pd.Str "8.00")] ].
Proof. reflexivity. Qed.

(** ** Composite headers *)

Lemma extract_table_from_html_selected (w : World) (u : string) (pos : nat)
    (tables : list pd.DataFrame) (df : pd.DataFrame) :
  read_tables w u = Some tables ->
  tables !! pos = Some df ->
  extract_table_from_html w u pos
  = ([FoundTables (length tables) u],
     Some (pd.reset_index (pd.dropna_all (flatten_columns df)))).
Proof.
  intros Hread Hpos. unfold extract_table_from_html. rewrite Hread.
  pose proof (lookup_lt_Some _ _ _ Hpos) as Hlt.
  destruct (Nat.ltb_spec pos (length tables)); [|lia].
  by rewrite Hpos.
Qed.

(** C4: when the frame at the requested position has a [MultiIndex], the
    generic parser returns a frame with one flat label per column: the
    levels of the column joined by one blank, the result stripped.  So
    every label is free of white space at both ends, and two levels [a],
    [b] give [a], a blank, [b] before stripping. *)
Theorem C4_composite_headers (w : World) (u : string) (pos : nat)
    (tables : list pd.DataFrame) (df : pd.DataFrame)
    (tuples : list (list string)) :
  read_tables w u = Some tables ->
  tables !! pos = Some df ->
  pd.columns df = pd.MultiIndex tuples ->
  exists out : pd.DataFrame,
    (extract_table_from_html w u pos).2 = Some out /\
    pd.columns out
    = pd.Index (map (fun levels => Py.strip (Py.join " " levels)) tuples) /\
    Forall (fun levels => Py.trimmed (Py.strip (Py.join " " levels)) = true) tuples /\
    (forall a b : string, Py.join " " [a; b] = a +:+ " " +:+ b).
Proof.
  intros Hread Hpos Hcols. eexists.
  split; [by rewrite (extract_table_from_html_selected _ _ _ _ _ Hread Hpos)|].
  split.
  - simpl. unfold flatten_columns. by rewrite Hcols.
  - split; [|done]. apply Forall_true. intros levels. apply strip_trimmed.
Qed.

(** "Rate" over "1yr" and "2yr". *)
Lemma C4_composite_headers_witness :
  exists out : pd.DataFrame,
    (extract_table_from_html (Sample.reading Sample.nsb_url [Sample.composite_frame])
                             Sample.nsb_url 0).2 = Some out /\
    pd.columns out = pd.Index ["Rate 1yr"; "Rate 2yr"].
Proof.
  destruct (C4_composite_headers
              (Sample.reading Sample.nsb_url [Sample.composite_frame])
              Sample.nsb_url 0 [Sample.composite_frame] Sample.composite_frame
              [["Rate"; "1yr"]; ["Rate"; "2yr"]] eq_refl eq_refl eq_refl)
    as (out & Hout & Hcols & _).
  exists out. split; [exact Hout | exact Hcols].
Defined.

(** ** Normalising twice *)

Lemma filter_idem {A : Type} (f : A -> bool) (l : list A) :
  List.filter f (List.filter f l) = List.filter f l.
Proof.
  induction l as [|x l IH]; simpl; [done|].
  destruct (f x) eqn:E; simpl; [rewrite E|]; by rewrite ?IH.
Qed.

Lemma filter_all {A : Type} (f : A -> bool) (l : list A) :
  Forall (fun x => f x = true) l -> List.filter f l = l.
Proof. induction 1 as [|x l Hx _ IH]; simpl; [done|]. by rewrite Hx, IH. Qed.

Lemma filter_snd (rows : list (nat * list pd.value)) :
  map snd (List.filter pd.keeps rows) = List.filter (existsb pd.notna) (map snd rows).
Proof.
  induction rows as [|r rows IH]; simpl; [done|]. unfold pd.keeps at 1.
  destruct (existsb pd.notna r.2); simpl; by rewrite IH.
Qed.

Lemma filter_strings (data : list (list string)) :
  List.filter (existsb pd.notna) (map (map pd.Str) data)
  = map (map pd.Str) (List.filter (fun r => negb (length r =? 0)) data).
Proof.
  induction data as [|r data IH]; simpl; [done|].
  destruct r; simpl; by rewrite IH.
Qed.

Lemma clean_rows (df : pd.DataFrame) :
  pd.reset_index (pd.dropna_all df)
  = {| pd.columns := pd.columns df;
       pd.rows := pd.enumerate (List.filter (existsb pd.notna) (map snd (pd.rows df))) |}.
Proof. unfold pd.reset_index, pd.dropna_all. simpl. by rewrite filter_snd. Qed.

Lemma clean_idem (df : pd.DataFrame) :
  pd.reset_index (pd.dropna_all (pd.reset_index (pd.dropna_all df)))
  = pd.reset_index (pd.dropna_all df).
Proof.
  rewrite (clean_rows (pd.reset_index _)), clean_rows. simpl.
  by rewrite enumerate_snd, filter_idem.
Qed.

Lemma texts_strings (data : list (list string)) :
  map (fun r : nat * list pd.value => map text_of r.2)
      (pd.enumerate (map (map pd.Str) data))
  = data.
Proof.
  rewrite <- (map_map snd (map text_of)), enumerate_snd, map_map.
  rewrite <- (map_id data) at 2. apply map_ext. intros r.
  rewrite map_map. simpl. apply map_id.
Qed.

Lemma normalize_value (headers : list string) (matrix : list (list string)) :
  normalize headers matrix
  = Some {| pd.columns := pd.Index headers;
            pd.rows := pd.enumerate
                         (map (map pd.Str)
                            (List.filter (fun r => negb (length r =? 0))
                               (map (reconcile (length headers)) matrix))) |}.
Proof.
  unfold normalize. rewrite new_DataFrame_uniform.
  - rewrite clean_rows. simpl. by rewrite enumerate_snd, filter_strings.
  - apply Forall_map, Forall_true. intros r. apply reconcile_length.
Qed.

(** The structural parser is [normalize] on the cell texts of the body
    rows, under the header texts. *)
Lemma extract_hdfc_table_normalize (w : World) (u : string) (pos : nat)
    (soup : document) (table : bs4.node) :
  requests_get w u = Some soup ->
  bs4.find_all "table" soup !! pos = Some table ->
  (extract_hdfc_table w u pos).2
  = normalize (hdfc_headers table) (map row_cells (body_trs table)).
Proof.
  intros Hget Hpos.
  rewrite (extract_hdfc_table_selected _ _ _ _ _ Hget Hpos). unfold normalize.
  rewrite map_map, <- hdfc_rows_map, hdfc_frame. done.
Qed.

Lemma normalized_rows_fixed (n : nat) (matrix : list (list string)) :
  map (reconcile n)
      (List.filter (fun r => negb (length r =? 0)) (map (reconcile n) matrix))
  = List.filter (fun r => negb (length r =? 0)) (map (reconcile n) matrix).
Proof.
  rewrite <- (map_id (List.filter _ _)) at 2. apply map_ext_Forall.
  rewrite List.Forall_forall. intros r Hr.
  apply List.filter_In in Hr as [Hr _].
  apply List.in_map_iff in Hr as (r0 & <- & _).
  apply reconcile_exact, reconcile_length.
Qed.

(** C8: normalising is idempotent.  The step of the structural parser
    (bring every row to the header width, build the frame, drop, re-index)
    always yields a frame, and applied to the cell texts of that frame it
    yields the same frame, hence the same records; dropping and
    re-indexing, the step both parsers share, leaves a frame that went
    through it unchanged; bringing a row to a width twice is the same as
    once. *)
Theorem C8_normalization_idempotent (headers : list string)
    (matrix : list (list string)) (frame : pd.DataFrame) (row : list string) :
  (exists df : pd.DataFrame,
      normalize headers matrix = Some df /\
      normalize headers (texts df) = Some df /\
      pd.to_dict_records <$> normalize headers (texts df)
      = Some (pd.to_dict_records df)) /\
  pd.reset_index (pd.dropna_all (pd.reset_index (pd.dropna_all frame)))
  = pd.reset_index (pd.dropna_all frame) /\
  reconcile (length headers) (reconcile (length headers) row)
  = reconcile (length headers) row.
Proof.
  split; [|split; [apply clean_idem | apply reconcile_exact, reconcile_length]].
  eexists. split; [apply normalize_value|].
  assert (normalize headers
            (texts {| pd.columns := pd.Index headers;
                      pd.rows := pd.enumerate
                        (map (map pd.Str)
                           (List.filter (fun r => negb (length r =? 0))
                              (map (reconcile (length headers)) matrix))) |})
          = Some {| pd.columns := pd.Index headers;
                    pd.rows := pd.enumerate
                      (map (map pd.Str)
                         (List.filter (fun r => negb (length r =? 0))
                            (map (reconcile (length headers)) matrix))) |}) as Hagain.
  { unfold texts. simpl. rewrite texts_strings, normalize_value.
    rewrite normalized_rows_fixed, filter_idem. done. }
  split; [exact Hagain|]. by rewrite Hagain.
Qed.

(** With at least one header cell the structural parser hands over one
    row per [tr] after the first: its cells are strings, never the missing
    value, so the drop of line 130 finds nothing to drop. *)
Lemma structural_keeps_every_row (w : World) (u : string) (pos : nat)
    (soup : document) (table : bs4.node) :
  requests_get w u = Some soup ->
  bs4.find_all "table" soup !! pos = Some table ->
  0 < length (hdfc_headers table) ->
  exists df : pd.DataFrame,
    (extract_hdfc_table w u pos).2 = Some df /\
    map snd (pd.rows df) = map (map pd.Str) (hdfc_rows table) /\
    length (pd.rows df) = length (body_trs table).
Proof.
  intros Hget Hpos Hwide.
  rewrite (extract_hdfc_table_selected _ _ _ _ _ Hget Hpos). eexists.
  split; [done|]. rewrite clean_rows. simpl.
  rewrite (enumerate_snd (map (map pd.Str) (hdfc_rows table))).
  rewrite filter_strings, filter_all.
  - split; [by rewrite enumerate_snd|].
    unfold pd.enumerate. rewrite length_zip, length_seq, !length_map.
    rewrite hdfc_rows_map, length_map. lia.
  - eapply Forall_impl; [apply hdfc_rows_width|].
    intros r Hr. simpl in Hr. rewrite Hr.
    destruct (length (hdfc_headers table)); [lia | done].
Qed.

(** ** What reaches the caller of [fetch_bank_data] *)

Lemma extract_failure_printed (w : World) (bank : string) (c : config) :
  existsb is_failure (extract w bank c).1 = true <-> (extract w bank c).2 = None.
Proof.
  unfold extract.
  destruct (special c && String.eqb bank "HDFC").
  - unfold extract_hdfc_table.
    destruct (requests_get w (url c)) as [soup|]; simpl; [|done].
    destruct (length (bs4.find_all "table" soup) <=? table_index c); simpl; [done|].
    destruct (bs4.find_all "table" soup !! table_index c) as [table|]; simpl; [|done].
    destruct (pd.new_DataFrame (hdfc_rows table) (hdfc_headers table)); simpl; done.
  - unfold extract_table_from_html.
    destruct (read_tables w (url c)) as [tables|]; simpl; [|done].
    destruct (table_index c <? length tables); simpl; [|done].
    destruct (tables !! table_index c); simpl; done.
Qed.

Lemma fetch_bank_data_cases (w : World) (now : string)
    (store : gmap string entry) (bank : string) (c : config) :
  BANK_CONFIG !! bank = Some c ->
  (exists df : pd.DataFrame,
      (extract w bank c).2 = Some df /\ pd.empty df = false /\
      fetch_bank_data w now store bank
      = (Response {| resp_bank := bank; resp_status := "success";
                     resp_message := SuccessfullyFetched (length (pd.to_dict_records df));
                     resp_data := Some (pd.to_dict_records df) |},
         <[bank := {| data := pd.to_dict_records df; timestamp := now |}]> store))
  \/ (((extract w bank c).2 = None
       \/ exists df : pd.DataFrame, (extract w bank c).2 = Some df /\ pd.empty df = true)
      /\ fetch_bank_data w now store bank
         = (Response (error_body bank NoDataFound), store)).
Proof.
  intros Hc. unfold fetch_bank_data. rewrite Hc.
  destruct (extract w bank c).2 as [df|] eqn:E.
  - destruct (pd.empty df) eqn:Eempty; simpl.
    + right. split; [right; by exists df | done].
    + left. by exists df.
  - right. split; [by left | done].
Qed.

(** C5, as the program has it.  When the direct read [pd.read_html(url)]
    raises, nothing is reported: the request is made instead, and when
    pandas reads the body the extraction goes on as if nothing had failed.
    Every other failure is printed by the extractor and makes it return
    [None]: the request raising, pandas raising on the body, the request
    of the structural parser raising, a table position out of range; and
    an extractor returns [None] only after printing such a line.
    [fetch_bank_data] answers [None] with the error body "No data found or
    table extraction failed", leaving the stored results as they were,
    whatever the failure was; it answers a frame that is empty the same
    way.  A body with status "success" is only ever built from a frame
    that is not empty and carries that frame's records. *)
Theorem C5_failures_reach_caller (w : World) (now : string)
    (store : gmap string entry) (bank : string) (c : config) :
  BANK_CONFIG !! bank = Some c ->
  (existsb is_failure (extract w bank c).1 = true <-> (extract w bank c).2 = None) /\
  (special c && String.eqb bank "HDFC" = false ->
   (pd_read_html w (Url (url c)) = None ->
    forall (response : document) (tables : list pd.DataFrame) (df : pd.DataFrame),
      requests_get w (url c) = Some response ->
      pd_read_html w (Text response) = Some tables ->
      tables !! table_index c = Some df ->
      extract w bank c
      = ([FoundTables (length tables) (url c)],
         Some (pd.reset_index (pd.dropna_all (flatten_columns df))))) /\
   (pd_read_html w (Url (url c)) = None ->
    requests_get w (url c) = None ->
    extract w bank c = ([ErrorProcessing (url c)], None)) /\
   (pd_read_html w (Url (url c)) = None ->
    forall response : document,
      requests_get w (url c) = Some response ->
      pd_read_html w (Text response) = None ->
      extract w bank c = ([ErrorProcessing (url c)], None)) /\
   (forall tables : list pd.DataFrame,
       read_tables w (url c) = Some tables ->
       length tables <= table_index c ->
       extract w bank c
       = ([FoundTables (length tables) (url c);
           TableIndexNotFound (table_index c) (url c)], None))) /\
  (special c && String.eqb bank "HDFC" = true ->
   (requests_get w (url c) = None -> extract w bank c = ([HdfcError], None)) /\
   (forall soup : document,
       requests_get w (url c) = Some soup ->
       length (bs4.find_all "table" soup) <= table_index c ->
       extract w bank c
       = ([HdfcFound (length (bs4.find_all "table" soup)); HdfcOutOfRange], None))) /\
  ((extract w bank c).2 = None ->
   fetch_bank_data w now store bank = (Response (error_body bank NoDataFound), store)) /\
  (forall df : pd.DataFrame,
      (extract w bank c).2 = Some df -> pd.empty df = true ->
      fetch_bank_data w now store bank = (Response (error_body bank NoDataFound), store)) /\
  (resp_status (body_of (fetch_bank_data w now store bank).1) = "success" ->
   exists df : pd.DataFrame,
     (extract w bank c).2 = Some df /\ pd.empty df = false /\
     resp_data (body_of (fetch_bank_data w now store bank).1)
     = Some (pd.to_dict_records df)).
Proof.
  intros Hc. split; [apply extract_failure_printed|].
  split.
  { intros Hgeneric. unfold extract. rewrite Hgeneric. repeat split.
    - intros Hdirect response tables df Hget Hbody Hdf.
      apply extract_table_from_html_selected; [|done].
      unfold read_tables. by rewrite Hdirect, Hget.
    - intros Hdirect Hget. unfold extract_table_from_html, read_tables.
      by rewrite Hdirect, Hget.
    - intros Hdirect response Hget Hbody.
      unfold extract_table_from_html, read_tables.
      by rewrite Hdirect, Hget, Hbody.
    - intros tables Hread Hle. unfold extract_table_from_html. rewrite Hread.
      destruct (Nat.ltb_spec (table_index c) (length tables)); [lia | done]. }
  split.
  { intros Hspecial. unfold extract. rewrite Hspecial. split.
    - intros Hget. unfold extract_hdfc_table. by rewrite Hget.
    - intros soup Hget Hle. unfold extract_hdfc_table. rewrite Hget. simpl.
      destruct (Nat.leb_spec (length (bs4.find_all "table" soup)) (table_index c));
        [done | lia]. }
  destruct (fetch_bank_data_cases w now store bank c Hc)
    as [(df & Hdf & Hempty & Hfetch) | [Hfail Hfetch]].
  - split; [intros Hnone; congruence|].
    split; [intros df' Hdf' Hempty'; congruence|].
    intros _. exists df. rewrite Hfetch. done.
  - split; [done|]. split; [done|].
    rewrite Hfetch. simpl. intros Hs. discriminate Hs.
Qed.

(** The request to HDFC raises: the error body, nothing stored. *)
Lemma C5_failures_reach_caller_witness :
  fetch_bank_data Sample.offline Sample.noon ∅ "HDFC"
  = (Response (error_body "HDFC" NoDataFound), ∅).
Proof.
  destruct (C5_failures_reach_caller Sample.offline Sample.noon ∅ "HDFC"
              {| url := Sample.hdfc_url; table_index := 1; special := true |}
              eq_refl)
    as (_ & _ & Hstructural & Hnone & _).
  apply Hnone. destruct Hstructural as [Hraise _]; [reflexivity|].
  rewrite Hraise; reflexivity.
Defined.

(** C5, as stated, fails.  Three worlds for the HDFC page: in the first the
    request raises; in the second the page has one table only, so position
    1 is out of range; in the third the table at position 1 is valid and has
    no body row, and the extractor returns its frame.  The caller gets the
    very same response in all three.  And a world for SMIB in which the
    direct read of pandas raises: the extractor prints no failure, and the
    caller gets a "success". *)
Lemma C5_counterexample :
  extract_hdfc_table Sample.offline Sample.hdfc_url 1 = ([HdfcError], None) /\
  extract_hdfc_table (Sample.serving Sample.hdfc_url (Sample.page [Sample.menu_table]))
                     Sample.hdfc_url 1
  = ([HdfcFound 1; HdfcOutOfRange], None) /\
  extract_hdfc_table (Sample.serving Sample.hdfc_url Sample.header_only_page)
                     Sample.hdfc_url 1
  = ([HdfcFound 2],
     Some {| pd.columns := pd.Index ["Period"; "Rate"]; pd.rows := [] |}) /\
  (fetch_bank_data Sample.offline Sample.noon ∅ "HDFC").1
  = (fetch_bank_data (Sample.serving Sample.hdfc_url Sample.header_only_page)
                     Sample.noon ∅ "HDFC").1 /\
  (fetch_bank_data Sample.offline Sample.noon ∅ "HDFC").1
  = (fetch_bank_data (Sample.serving Sample.hdfc_url (Sample.page [Sample.menu_table]))
                     Sample.noon ∅ "HDFC").1 /\
  pd_read_html Sample.fallback_world (Url Sample.smib_url) = None /\
  (extract_table_from_html Sample.fallback_world Sample.smib_url 0).1
  = [FoundTables 1 Sample.smib_url] /\
  resp_status (body_of (fetch_bank_data Sample.fallback_world Sample.noon ∅ "SMIB").1)
  = "success".
Proof. repeat split; reflexivity. Qed.

(** ** The stored results *)

(** C10: [fetch_bank_data] leaves the stored results as they were unless it
    answers "success": they are unchanged for a bank that is not
    configured, when the extractor returns [None], and when it returns a
    frame without rows.  When it does store, the entry of the requested
    bank becomes the new records with the time of the call, and the entry
    of every other bank is what it was. *)
Theorem C10_store_frame (w : World) (now : string)
    (store : gmap string entry) (bank : string) :
  (resp_status (body_of (fetch_bank_data w now store bank).1) <> "success" ->
   (fetch_bank_data w now store bank).2 = store) /\
  (BANK_CONFIG !! bank = None -> (fetch_bank_data w now store bank).2 = store) /\
  (forall c : config,
      BANK_CONFIG !! bank = Some c ->
      (extract w bank c).2 = None
      \/ (exists df : pd.DataFrame, (extract w bank c).2 = Some df /\ pd.rows df = []) ->
      (fetch_bank_data w now store bank).2 = store) /\
  (forall other : string,
      other <> bank ->
      (fetch_bank_data w now store bank).2 !! other = store !! other) /\
  (resp_status (body_of (fetch_bank_data w now store bank).1) = "success" ->
   exists rs : list pd.dict,
     resp_data (body_of (fetch_bank_data w now store bank).1) = Some rs /\
     rs <> [] /\
     (fetch_bank_data w now store bank).2
     = <[bank := {| data := rs; timestamp := now |}]> store).
Proof.
  destruct (BANK_CONFIG !! bank) as [c|] eqn:Hc.
  2: { unfold fetch_bank_data. rewrite Hc. simpl.
       repeat split; done. }
  destruct (fetch_bank_data_cases w now store bank c Hc)
    as [(df & Hdf & Hempty & Hfetch) | [Hfail Hfetch]]; rewrite Hfetch; simpl.
  - split; [done|]. split; [done|]. split.
    { intros c' Hc' [Hnone | (df' & Hdf' & Hrows)].
      - congruence.
      - assert (c' = c) as -> by congruence.
        assert (df' = df) as -> by congruence.
        unfold pd.empty in Hempty. rewrite Hrows in Hempty. discriminate Hempty. }
    split; [intros other Hne; by rewrite lookup_insert_ne|].
    intros _. eexists. split; [done|]. split; [|done].
    unfold pd.to_dict_records. intros Hnil. apply map_eq_nil in Hnil.
    unfold pd.empty in Hempty. rewrite Hnil in Hempty. discriminate Hempty.
  - repeat split; done.
Qed.

(** A stored HDFC entry survives a fetch of HDFC that fails, and a fetch of
    SMIB that succeeds. *)
Example store_after_failure :
  (fetch_bank_data Sample.offline Sample.noon
     {[ "HDFC" := {| data := []; timestamp := "2023-12-31T09:00:00" |} ]} "HDFC").2
  = {[ "HDFC" := {| data := []; timestamp := "2023-12-31T09:00:00" |} ]}.
Proof. reflexivity. Qed.

Example store_after_success :
  (fetch_bank_data Sample.batch_world Sample.noon
     {[ "HDFC" := {| data := []; timestamp := "2023-12-31T09:00:00" |} ]} "SMIB").2
    !! "HDFC"
  = Some {| data := []; timestamp := "2023-12-31T09:00:00" |}.
Proof. vm_compute. reflexivity. Qed.

(** ** Batches *)

Lemma fetch_bank_data_body (w : World) (now now' : string)
    (store store' : gmap string entry) (bank : string) :
  (fetch_bank_data w now store bank).1 = (fetch_bank_data w now' store' bank).1.
Proof.
  unfold fetch_bank_data.
  destruct (BANK_CONFIG !! bank) as [c|]; [|done].
  destruct (extract w bank c).2 as [df|]; [|done].
  destruct (pd.empty df); done.
Qed.

Lemma fetch_bank_data_json (w : World) (now : string)
    (store : gmap string entry) (bank : string) :
  is_Some (BANK_CONFIG !! bank) ->
  get_json (fetch_bank_data w now store bank).1
  = Some (body_of (fetch_bank_data w now store bank).1).
Proof.
  intros [c Hc].
  destruct (fetch_bank_data_cases w now store bank c Hc)
    as [(df & _ & _ & ->) | [_ ->]]; done.
Qed.

Lemma fetch_loop_results (w : World) (clock : nat -> string) (banks : list string) :
  forall (i : nat) (store : gmap string entry) (results : gmap string json),
  exists (results' : gmap string json) (store' : gmap string entry),
    fetch_loop w clock i store results banks = (Some results', store') /\
    forall b : string,
      (b ∈ banks -> is_Some (BANK_CONFIG !! b) ->
       forall (now : string) (store0 : gmap string entry),
         results' !! b = Some (body_of (fetch_bank_data w now store0 b).1)) /\
      (b ∉ banks -> results' !! b = results !! b).
Proof.
  induction banks as [|bank rest IH]; intros i store results; simpl.
  - exists results, store. split; [done|]. intros b. split; [|done].
    intros Hin. by apply elem_of_nil in Hin.
  - destruct (BANK_CONFIG !! bank) as [c|] eqn:Hc.
    + destruct (fetch_bank_data w (clock i) store bank) as [result store1] eqn:Hf.
      assert (get_json result = Some (body_of result)) as ->.
      { pose proof (fetch_bank_data_json w (clock i) store bank (mk_is_Some _ _ Hc)) as H.
        by rewrite Hf in H. }
      destruct (IH (S i) store1 (<[bank := body_of result]> results))
        as (results' & store' & Hloop & Hres).
      exists results', store'. split; [done|]. intros b.
      destruct (Hres b) as [Hin Hout]. split.
      * intros Hb Hknown now store0.
        destruct (decide (b ∈ rest)) as [Hrest | Hrest]; [by apply Hin|].
        apply elem_of_cons in Hb as [-> | Hb]; [|done].
        rewrite Hout, lookup_insert_eq by done. f_equal.
        rewrite (fetch_bank_data_body w now (clock i) store0 store bank), Hf. done.
      * intros Hb. apply not_elem_of_cons in Hb as [Hne Hrest].
        rewrite Hout, lookup_insert_ne by done. done.
    + destruct (IH (S i) store results) as (results' & store' & Hloop & Hres).
      exists results', store'. split; [done|]. intros b.
      destruct (Hres b) as [Hin Hout]. split.
      * intros Hb Hknown. apply elem_of_cons in Hb as [-> | Hb]; [|by apply Hin].
        rewrite Hc in Hknown. by destruct Hknown.
      * intros Hb. apply not_elem_of_cons in Hb as [_ Hrest]. by apply Hout.
Qed.

(** C7: a batch always runs to its end, and for every configured bank of
    the batch the body filed under its name is the body [fetch_bank_data]
    gives for that bank on its own, at any time and over any stored
    results: what the other banks of the batch do, failing or not, does
    not enter it. *)
Theorem C7_batch_isolation (w : World) (clock : nat -> string)
    (store : gmap string entry) (banks : list string) (b : string) :
  b ∈ banks ->
  is_Some (BANK_CONFIG !! b) ->
  exists (results : gmap string json) (sums : summary) (store' : gmap string entry),
    fetch_multiple_banks w clock store banks = (Some (results, sums), store') /\
    forall (now : string) (store0 : gmap string entry),
      results !! b = Some (body_of (fetch_bank_data w now store0 b).1).
Proof.
  intros Hb Hknown. unfold fetch_multiple_banks.
  destruct (fetch_loop_results w clock banks 0 store ∅)
    as (results & store' & -> & Hres).
  eexists _, _, _. split; [done|].
  intros now store0. by apply (Hres b).
Qed.

(** Three banks, the request to HDFC fails: NSB is answered with its
    records and a "success", HDFC with an "error". *)
Lemma C7_batch_isolation_witness :
  exists (results : gmap string json) (sums : summary) (store' : gmap string entry),
    fetch_multiple_banks Sample.batch_world (fun _ => Sample.noon) ∅
                         ["NSB"; "HDFC"; "SMIB"]
    = (Some (results, sums), store') /\
    resp_status <$> results !! "NSB" = Some "success" /\
    resp_status <$> results !! "HDFC" = Some "error".
Proof.
  destruct (C7_batch_isolation Sample.batch_world (fun _ => Sample.noon) ∅
              ["NSB"; "HDFC"; "SMIB"] "NSB")
    as (results & sums & store' & Hbatch & Hnsb).
  - apply list_elem_of_here.
  - vm_compute. eexists. reflexivity.
  - exists results, sums, store'. split; [exact Hbatch|].
    split; [by rewrite (Hnsb Sample.noon ∅)|].
    vm_compute in Hbatch. injection Hbatch as <- _ _. reflexivity.
Defined.

(** ** The two parsers on one table *)



















(** * Further properties *)

(** ** The frame the generic parser returns *)

Lemma enumerate_fst {A : Type} (l : list A) :
  map fst (pd.enumerate l) = seq 0 (length l).
Proof. unfold pd.enumerate. apply fst_zip. rewrite length_seq. done. Qed.

Lemma enumerate_length {A : Type} (l : list A) : length (pd.enumerate l) = length l.
Proof. unfold pd.enumerate. rewrite length_zip, length_seq. lia. Qed.

Lemma Forall_enumerate {A : Type} (P : A -> Prop) (l : list A) :
  Forall P l -> Forall (fun r => P r.2) (pd.enumerate l).
Proof.
  intros H. apply (proj1 (Forall_fmap snd P (pd.enumerate l))).
  fold (map snd (pd.enumerate l)). by rewrite enumerate_snd.
Qed.

Lemma flatten_columns_rows (df : pd.DataFrame) :
  pd.rows (flatten_columns df) = pd.rows df.
Proof. unfold flatten_columns. by destruct (pd.columns df). Qed.

Lemma flatten_columns_flat (df : pd.DataFrame) :
  (forall tuples : list (list string),
      pd.columns (flatten_columns df) <> pd.MultiIndex tuples) /\
  pd.ncols (pd.columns (flatten_columns df)) = pd.ncols (pd.columns df).
Proof.
  unfold flatten_columns.
  destruct (pd.columns df) as [labels | n | tuples] eqn:E; simpl; rewrite ?E; simpl.
  - done.
  - done.
  - split; [done | by rewrite length_map].
Qed.

Lemma filter_split_length {A : Type} (f : A -> bool) (l : list A) :
  length (List.filter f l) + length (List.filter (fun x => negb (f x)) l) = length l.
Proof. induction l as [|x l IH]; simpl; [done|]. destruct (f x); simpl; lia. Qed.

(** X1: whenever the generic parser returns a frame, it comes from the frame
    pandas read at the requested position and is clean: its rows are
    numbered 0, 1, 2, ... without gap; they are, in their order, the rows
    of the source frame that hold a value in some cell, so a source of N
    rows of which K hold no value gives N - K rows; none of them is
    without a value; the columns are never a [MultiIndex], and there are
    as many as in the source. *)
Theorem generic_frame_clean (w : World) (u : string) (pos : nat)
    (df : pd.DataFrame) :
  (extract_table_from_html w u pos).2 = Some df ->
  exists (tables : list pd.DataFrame) (src : pd.DataFrame),
    read_tables w u = Some tables /\
    tables !! pos = Some src /\
    map fst (pd.rows df) = seq 0 (length (pd.rows df)) /\
    map snd (pd.rows df) = List.filter (existsb pd.notna) (map snd (pd.rows src)) /\
    Forall (fun r => existsb pd.notna r.2 = true) (pd.rows df) /\
    length (pd.rows df)
    + length (List.filter (fun cells => negb (existsb pd.notna cells))
                          (map snd (pd.rows src)))
    = length (pd.rows src) /\
    (forall tuples : list (list string), pd.columns df <> pd.MultiIndex tuples) /\
    pd.ncols (pd.columns df) = pd.ncols (pd.columns src).
Proof.
  unfold extract_table_from_html.
  destruct (read_tables w u) as [tables|] eqn:Hread; [|done].
  destruct (pos <? length tables); [|done].
  destruct (tables !! pos) as [src|] eqn:Hpos; [|done].
  simpl. intros [= <-]. exists tables, src.
  split; [done|]. split; [done|].
  rewrite clean_rows, flatten_columns_rows. simpl.
  rewrite enumerate_fst, enumerate_snd, enumerate_length.
  split; [done|]. split; [done|]. split.
  - apply (Forall_enumerate (fun cells => existsb pd.notna cells = true)).
    rewrite List.Forall_forall.
    intros cells Hin. by apply List.filter_In in Hin as [_ ?].
  - split; [|apply flatten_columns_flat].
    rewrite filter_split_length. by rewrite length_map.
Qed.

(** The frame of three rows with a row of missing values in the middle:
    two rows come back, numbered 0 and 1. *)
Lemma generic_frame_clean_witness :
  exists df : pd.DataFrame,
    (extract_table_from_html Sample.batch_world Sample.nsb_url 1).2 = Some df /\
    map fst (pd.rows df) = [0; 1].
Proof.
  eexists. split; [reflexivity|].
  destruct (generic_frame_clean Sample.batch_world Sample.nsb_url 1 _ eq_refl)
    as (tables & src & _ & _ & Hindex & _).
  exact Hindex.
Defined.

(** ** A table without header cell *)

Lemma filter_none {A : Type} (f : A -> bool) (l : list A) :
  Forall (fun x => f x = false) l -> List.filter f l = [].
Proof. induction 1 as [|x l Hx _ IH]; simpl; [done|]. by rewrite Hx. Qed.

(** X2: when the selected table has no [th] cell at all, the structural
    parser returns a frame without columns and without rows, whatever the
    rows of the table hold; [fetch_bank_data] then answers "No data found
    or table extraction failed" and stores nothing. *)
Theorem structural_without_header (w : World) (u : string) (pos : nat)
    (soup : document) (table : bs4.node) :
  requests_get w u = Some soup ->
  bs4.find_all "table" soup !! pos = Some table ->
  bs4.find_all "th" (bs4.contents table) = [] ->
  (extract_hdfc_table w u pos).2
  = Some {| pd.columns := pd.Index []; pd.rows := [] |} /\
  forall (bank : string) (c : config) (now : string) (store : gmap string entry),
    BANK_CONFIG !! bank = Some c ->
    special c && String.eqb bank "HDFC" = true ->
    url c = u ->
    table_index c = pos ->
    fetch_bank_data w now store bank
    = (Response (error_body bank NoDataFound), store).
Proof.
  intros Hget Hpos Hth.
  assert (hdfc_headers table = []) as Hheaders.
  { unfold hdfc_headers. by rewrite Hth. }
  assert ((extract_hdfc_table w u pos).2
          = Some {| pd.columns := pd.Index []; pd.rows := [] |}) as Hframe.
  { rewrite (extract_hdfc_table_selected _ _ _ _ _ Hget Hpos), clean_rows. simpl.
    rewrite Hheaders, enumerate_snd, filter_strings, filter_none; [done|].
    eapply Forall_impl; [apply hdfc_rows_width|].
    intros r Hr. simpl in Hr. rewrite Hr, Hheaders. done. }
  split; [exact Hframe|].
  intros bank c now store Hc Hspecial Hu Hi.
  unfold fetch_bank_data, extract. rewrite Hc, Hspecial, Hu, Hi, Hframe. done.
Qed.

(** The first table of the sample page has [td] cells only. *)
Lemma structural_without_header_witness :
  (extract_hdfc_table (Sample.serving Sample.hdfc_url Sample.rates_page)
                      Sample.hdfc_url 0).2
  = Some {| pd.columns := pd.Index []; pd.rows := [] |}.
Proof.
  apply (structural_without_header
           (Sample.serving Sample.hdfc_url Sample.rates_page)
           Sample.hdfc_url 0 Sample.rates_page Sample.menu_table);
    reflexivity.
Defined.

(** ** Row widths in the returned frame *)






(** ** The keys of the records *)

Lemma dict_set_keys (d : pd.dict) (k : pd.key) (v : pd.value) :
  map fst (pd.dict_set d k v) = add_key (map fst d) k.
Proof.
  unfold add_key. induction d as [|[k' v'] d IH]; simpl; [done|].
  destruct (decide (k = k')) as [-> | Hne]; simpl.
  - rewrite bool_decide_eq_true_2; [done | apply list_elem_of_here].
  - rewrite IH. destruct (bool_decide (k ∈ map fst d)) eqn:E.
    + apply bool_decide_eq_true_1 in E.
      rewrite bool_decide_eq_true_2; [done | by apply list_elem_of_further].
    + apply bool_decide_eq_false_1 in E.
      rewrite bool_decide_eq_false_2; [done|].
      intros Hin. apply elem_of_cons in Hin as [? | ?]; done.
Qed.

Lemma dict_set_new (d : pd.dict) (k : pd.key) (v : pd.value) :
  k ∉ map fst d -> pd.dict_set d k v = d ++ [(k, v)].
Proof.
  induction d as [|[k' v'] d IH]; simpl; [done|]. intros Hnot.
  apply not_elem_of_cons in Hnot as [Hne Hnot].
  destruct (decide (k = k')); [done|]. by rewrite IH.
Qed.

Lemma assign_keys (ks : list pd.key) :
  forall (cells : list pd.value) (acc : pd.dict),
    length ks <= length cells ->
    map fst (fold_left (fun d kv => pd.dict_set d kv.1 kv.2) (zip ks cells) acc)
    = fold_left add_key ks (map fst acc).
Proof.
  induction ks as [|k ks IH]; intros cells acc Hlen; simpl; [done|].
  destruct cells as [|v cells]; simpl in *; [lia|].
  rewrite IH by lia. by rewrite dict_set_keys.
Qed.

Lemma assign_distinct (ks : list pd.key) :
  forall (cells : list pd.value) (acc : pd.dict),
    NoDup ks ->
    (forall k : pd.key, k ∈ ks -> k ∉ map fst acc) ->
    fold_left (fun d kv => pd.dict_set d kv.1 kv.2) (zip ks cells) acc
    = acc ++ zip ks cells.
Proof.
  induction ks as [|k ks IH]; intros cells acc Hnodup Hfresh; simpl.
  - by rewrite app_nil_r.
  - destruct cells as [|v cells]; simpl; [by rewrite app_nil_r|].
    apply NoDup_cons in Hnodup as [Hk Hnodup].
    rewrite dict_set_new by (apply Hfresh, list_elem_of_here).
    rewrite IH; [by rewrite <- app_assoc | done |].
    intros k' Hk'. rewrite map_app. simpl. intros Hin.
    apply elem_of_app in Hin as [Hin | Hin].
    + by apply (Hfresh k'); [apply list_elem_of_further|].
    + apply list_elem_of_singleton in Hin as ->. done.
Qed.

Lemma add_keys_NoDup (ks seen : list pd.key) :
  NoDup seen -> NoDup (fold_left add_key ks seen).
Proof.
  revert seen. induction ks as [|k ks IH]; intros seen Hseen; simpl; [done|].
  apply IH. unfold add_key. destruct (bool_decide (k ∈ seen)) eqn:E; [done|].
  apply bool_decide_eq_false_1 in E.
  apply NoDup_app. split; [done|]. split; [|apply NoDup_singleton].
  intros x Hx Hin. apply list_elem_of_singleton in Hin as ->. done.
Qed.

Lemma add_keys_elem (ks seen : list pd.key) (k : pd.key) :
  k ∈ fold_left add_key ks seen <-> k ∈ seen \/ k ∈ ks.
Proof.
  revert seen. induction ks as [|k' ks IH]; intros seen; simpl.
  - split; [by left|]. intros [? | Hin]; [done|]. by apply elem_of_nil in Hin.
  - rewrite IH, elem_of_cons. unfold add_key.
    destruct (bool_decide (k' ∈ seen)) eqn:E.
    + apply bool_decide_eq_true_1 in E. split; [tauto|].
      intros [? | [-> | ?]]; tauto.
    + rewrite elem_of_app, list_elem_of_singleton. tauto.
Qed.

Lemma add_keys_length (ks seen : list pd.key) :
  length (fold_left add_key ks seen) <= length seen + length ks.
Proof.
  revert seen. induction ks as [|k ks IH]; intros seen; simpl; [lia|].
  etrans; [apply IH|]. unfold add_key.
  destruct (bool_decide (k ∈ seen)); [lia|]. rewrite length_app. simpl. lia.
Qed.

Lemma add_keys_distinct (ks seen : list pd.key) :
  NoDup ks ->
  (forall k : pd.key, k ∈ ks -> k ∉ seen) ->
  fold_left add_key ks seen = seen ++ ks.
Proof.
  revert seen. induction ks as [|k ks IH]; intros seen Hnd Hfresh; simpl.
  - by rewrite app_nil_r.
  - apply NoDup_cons in Hnd as [Hk Hnd]. unfold add_key at 2.
    rewrite bool_decide_eq_false_2 by (apply Hfresh, list_elem_of_here).
    rewrite IH; [by rewrite <- app_assoc | done |].
    intros k' Hk' Hin. apply elem_of_app in Hin as [Hin | Hin].
    + by apply (Hfresh k'); [apply list_elem_of_further|].
    + apply list_elem_of_singleton in Hin as ->. done.
Qed.

Lemma dict_set_NoDup (d : pd.dict) (k : pd.key) (v : pd.value) :
  NoDup (map fst d) -> NoDup (map fst (pd.dict_set d k v)).
Proof.
  intros Hd. rewrite dict_set_keys.
  apply (add_keys_NoDup [k] (map fst d) Hd).
Qed.

Lemma dict_set_elem (d : pd.dict) (k k' : pd.key) (v v' : pd.value) :
  NoDup (map fst d) ->
  (k', v') ∈ pd.dict_set d k v
  <-> (k' = k /\ v' = v) \/ (k' <> k /\ (k', v') ∈ d).
Proof.
  induction d as [|[k1 v1] d IH]; simpl; intros Hd.
  - rewrite list_elem_of_singleton. split.
    + intros [= -> ->]. by left.
    + intros [[-> ->] | [_ Hin]]; [done|]. by apply elem_of_nil in Hin.
  - apply NoDup_cons in Hd as [Hk1 Hd].
    destruct (decide (k = k1)) as [-> | Hne].
    + rewrite !elem_of_cons. split.
      * intros [[= -> ->] | Hin]; [by left|]. right. split; [|by right].
        intros ->. apply Hk1. apply list_elem_of_fmap. by exists (k1, v').
      * intros [[-> ->] | [Hne' [[= -> ->] | Hin]]]; [by left | done | by right].
    + rewrite !elem_of_cons, (IH Hd). split.
      * intros [[= -> ->] | [[-> ->] | [Hne' Hin]]].
        -- right. split; [done | by left].
        -- by left.
        -- right. split; [done | by right].
      * intros [[-> ->] | [Hne' [[= -> ->] | Hin]]].
        -- right. by left.
        -- by left.
        -- right. right. done.
Qed.

(** Assigning pairs in turn: each key ends with the value of its last
    pair. *)
Lemma assign_pairs_elem (l : list (pd.key * pd.value)) :
  NoDup (map fst (fold_left (fun d kv => pd.dict_set d kv.1 kv.2) l [])) /\
  forall (k : pd.key) (v : pd.value),
    (k, v) ∈ fold_left (fun d kv => pd.dict_set d kv.1 kv.2) l []
    <-> exists j : nat,
          l !! j = Some (k, v) /\
          forall (j' : nat) (kv : pd.key * pd.value),
            j < j' -> l !! j' = Some kv -> kv.1 <> k.
Proof.
  induction l as [|[k0 v0] l [IHnd IH]] using rev_ind.
  - split; [apply NoDup_nil_2|]. intros k v. simpl. split.
    + intros Hin. by apply elem_of_nil in Hin.
    + by intros (j & Hj & _).
  - rewrite fold_left_app. simpl. split; [by apply dict_set_NoDup|].
    intros k v. rewrite (dict_set_elem _ _ _ _ _ IHnd), IH. split.
    + intros [[-> ->] | [Hne (j & Hj & Hlast)]].
      * exists (length l). split; [by rewrite list_lookup_middle|].
        intros j' kv Hlt Hkv. apply lookup_lt_Some in Hkv.
        rewrite length_app in Hkv. simpl in Hkv. lia.
      * exists j. split; [by apply lookup_app_l_Some|].
        intros j' kv Hlt Hkv. apply lookup_app_Some in Hkv as [Hkv | [Hge Hkv]].
        -- by apply (Hlast j' kv).
        -- apply list_lookup_singleton_Some in Hkv as [_ <-]. done.
    + intros (j & Hj & Hlast).
      apply lookup_app_Some in Hj as [Hj | [Hge Hj]].
      * right. split.
        -- intros ->. apply (Hlast (length l) (k0, v0)); [|by rewrite list_lookup_middle|done].
           by apply lookup_lt_Some in Hj.
        -- exists j. split; [done|]. intros j' kv Hlt Hkv.
           apply (Hlast j' kv Hlt). by apply lookup_app_l_Some.
      * apply list_lookup_singleton_Some in Hj as [_ [= -> ->]]. by left.
Qed.

Lemma record_of_elem (ks : list pd.key) (cells : list pd.value)
    (k : pd.key) (v : pd.value) :
  length ks = length cells ->
  (k, v) ∈ pd.record_of ks cells
  <-> exists j : nat,
        ks !! j = Some k /\ cells !! j = Some v /\
        forall j' : nat, j < j' -> ks !! j' <> Some k.
Proof.
  intros Hlen. unfold pd.record_of.
  rewrite (proj2 (assign_pairs_elem (zip ks cells))). split.
  - intros (j & Hj & Hlast).
    apply lookup_zip_with_Some in Hj as (k1 & v1 & [= <- <-] & Hk & Hv).
    exists j. split; [done|]. split; [done|]. intros j' Hlt Hk'.
    pose proof (lookup_lt_Some _ _ _ Hk') as Hj'. rewrite Hlen in Hj'.
    apply lookup_lt_is_Some_2 in Hj' as [v' Hv'].
    apply (Hlast j' (k, v') Hlt); [|done].
    apply lookup_zip_with_Some. by exists k, v'.
  - intros (j & Hk & Hv & Hlast). exists j. split.
    + apply lookup_zip_with_Some. by exists k, v.
    + intros j' [k' v'] Hlt Hkv. simpl. intros ->.
      apply lookup_zip_with_Some in Hkv as (k1 & v1 & [= <- <-] & Hk' & _).
      by apply (Hlast j').
Qed.

(** X3: the records of the structural parser have one schema: every record
    has the same keys in the same order, each key once, and the keys are
    the header texts (a text that labels several columns gives one key,
    so there are at most as many keys as columns).  With at least one
    header cell there is one record per emitted row, in the order of the
    rows, and under each header text the record holds the cell of the
    last column labelled by that text, and nothing else: of columns with
    equal header texts the later one wins.  When the header texts are
    pairwise distinct and there is at least one, the records are, row by
    row, the header texts paired with the cells of the row. *)
Theorem structural_records_schema (w : World) (u : string) (pos : nat)
    (soup : document) (table : bs4.node) :
  requests_get w u = Some soup ->
  bs4.find_all "table" soup !! pos = Some table ->
  exists (rs : list pd.dict) (schema : list pd.key),
    records (extract_hdfc_table w u pos) = Some rs /\
    Forall (fun r => map fst r = schema) rs /\
    NoDup schema /\
    (forall k : pd.key, k ∈ schema <-> k ∈ map pd.Label (hdfc_headers table)) /\
    length schema <= length (hdfc_headers table) /\
    (0 < length (hdfc_headers table) ->
     Forall2 (fun (r : pd.dict) (row : list string) =>
                forall (label : string) (v : pd.value),
                  (pd.Label label, v) ∈ r
                  <-> exists (j : nat) (s : string),
                        hdfc_headers table !! j = Some label /\
                        row !! j = Some s /\ v = pd.Str s /\
                        forall j' : nat,
                          j < j' -> hdfc_headers table !! j' <> Some label)
             rs (hdfc_rows table)) /\
    (NoDup (hdfc_headers table) ->
     0 < length (hdfc_headers table) ->
     schema = map pd.Label (hdfc_headers table) /\
     rs = map (fun row => zip (map pd.Label (hdfc_headers table)) (map pd.Str row))
              (hdfc_rows table)).
Proof.
  intros Hget Hpos.
  exists (pd.to_dict_records
            (pd.reset_index (pd.dropna_all
               {| pd.columns := pd.Index (hdfc_headers table);
                  pd.rows := pd.enumerate (map (map pd.Str) (hdfc_rows table)) |}))),
         (fold_left add_key (map pd.Label (hdfc_headers table)) []).
  split.
  { unfold records. by rewrite (extract_hdfc_table_selected _ _ _ _ _ Hget Hpos). }
  rewrite clean_rows. unfold pd.to_dict_records. simpl.
  rewrite enumerate_snd, filter_strings.
  split.
  { apply Forall_map.
    apply (Forall_enumerate
             (fun cells => map fst (pd.record_of (map pd.Label (hdfc_headers table)) cells)
                           = fold_left add_key (map pd.Label (hdfc_headers table)) [])).
    apply Forall_map. rewrite List.Forall_forall. intros row Hrow.
    apply List.filter_In in Hrow as [Hrow _].
    pose proof (hdfc_rows_width table) as Hwidth.
    rewrite List.Forall_forall in Hwidth. specialize (Hwidth row Hrow).
    unfold pd.record_of. rewrite assign_keys; [done|].
    rewrite !length_map. lia. }
  split; [apply add_keys_NoDup, NoDup_nil_2|].
  split.
  { intros k. rewrite add_keys_elem. split; [|by right].
    intros [Hin | ?]; [|done]. by apply elem_of_nil in Hin. }
  split.
  { etrans; [apply add_keys_length|]. simpl. by rewrite length_map. }
  assert (0 < length (hdfc_headers table) ->
          map (fun r : nat * list pd.value =>
                 pd.record_of (map pd.Label (hdfc_headers table)) r.2)
              (pd.enumerate
                 (map (map pd.Str)
                    (List.filter (fun r => negb (length r =? 0)) (hdfc_rows table))))
          = map (fun row => pd.record_of (map pd.Label (hdfc_headers table))
                              (map pd.Str row))
                (hdfc_rows table)) as Hshape.
  { intros Hwide. rewrite filter_all.
    - rewrite <- (map_map snd (fun cells => pd.record_of _ cells)), enumerate_snd.
      by rewrite map_map.
    - eapply Forall_impl; [apply hdfc_rows_width|]. intros r Hr. simpl in Hr.
      rewrite Hr. destruct (length (hdfc_headers table)); [lia | done]. }
  split.
  { intros Hwide. rewrite (Hshape Hwide).
    apply Forall2_fmap_l, Forall_Forall2_diag.
    eapply Forall_impl; [apply hdfc_rows_width|].
    intros row Hrow label v. simpl in *.
    rewrite record_of_elem by (by rewrite !length_map).
    split.
    - intros (j & Hk & Hv & Hlast).
      rewrite list_lookup_fmap in Hk. rewrite list_lookup_fmap in Hv.
      destruct (hdfc_headers table !! j) as [label'|] eqn:Hl; [|done].
      injection Hk as ->.
      destruct (row !! j) as [s|] eqn:Hs; [|done]. injection Hv as <-.
      exists j, s. split; [done|]. split; [done|]. split; [done|].
      intros j' Hlt Hl'. apply (Hlast j' Hlt).
      by rewrite list_lookup_fmap, Hl'.
    - intros (j & s & Hl & Hs & -> & Hlast). exists j.
      rewrite !list_lookup_fmap, Hl, Hs. split; [done|]. split; [done|].
      intros j' Hlt Hk. rewrite list_lookup_fmap in Hk.
      destruct (hdfc_headers table !! j') as [label'|] eqn:Hl'; [|done].
      injection Hk as ->. by apply (Hlast j'). }
  intros Hnodup Hwide.
  assert (NoDup (map pd.Label (hdfc_headers table))) as Hkeys.
  { apply (NoDup_fmap_2_strong pd.Label); [|done]. by intros x y _ _ [= ->]. }
  split.
  { rewrite add_keys_distinct; [done | done |].
    intros k _ Hin. by apply elem_of_nil in Hin. }
  rewrite (Hshape Hwide).
  apply map_ext. intros row. unfold pd.record_of.
  rewrite assign_distinct; [done | done |].
  intros k _ Hin. by apply elem_of_nil in Hin.
Qed.

(** The table of four distinct header texts: the first record pairs them
    with the cells of the padded first row. *)
Lemma structural_records_schema_witness :
  exists rs : list pd.dict,
    records (extract_hdfc_table (Sample.serving Sample.hdfc_url Sample.rates_page)
                                Sample.hdfc_url 1) = Some rs /\
    rs !! 0 = Some [(pd.Label "Period", pd.Str "3 months");
                    (pd.Label "Monthly", pd.Str "7.00");
                    (pd.Label "Annual", pd.Str "");
                    (pd.Label "Maturity", pd.Str "")].
Proof.
  destruct (structural_records_schema
              (Sample.serving Sample.hdfc_url Sample.rates_page)
              Sample.hdfc_url 1 Sample.rates_page Sample.rates_table
              eq_refl eq_refl)
    as (rs & schema & Hrs & _ & _ & _ & _ & _ & Hdistinct).
  exists rs. split; [exact Hrs|].
  destruct Hdistinct as [_ ->].
  - apply (bool_decide_unpack _). vm_compute. reflexivity.
  - vm_compute. lia.
  - reflexivity.
Defined.

(** Two header cells with the same text: one key, holding the cell of
    the later column. *)
Example twin_labels_one_key :
  records (extract_hdfc_table (Sample.serving Sample.hdfc_url Sample.twin_page)
                              Sample.hdfc_url 1)
  = Some [[(pd.Label "Rate", pd.Str "7.50")]].
Proof. reflexivity. Qed.

(** ** The stored results across calls *)

Lemma fetch_bank_data_unknown (w : World) (now : string)
    (store : gmap string entry) (bank : string) :
  BANK_CONFIG !! bank = None ->
  fetch_bank_data w now store bank
  = (ResponseWithCode (error_body bank (BankNotFound bank)) 404, store).
Proof. intros Hc. unfold fetch_bank_data. by rewrite Hc. Qed.

Lemma fetch_bank_data_other (w : World) (now : string)
    (store : gmap string entry) (bank other : string) :
  other <> bank ->
  (fetch_bank_data w now store bank).2 !! other = store !! other.
Proof.
  intros Hne. destruct (BANK_CONFIG !! bank) as [c|] eqn:Hc.
  - destruct (fetch_bank_data_cases w now store bank c Hc)
      as [(df & _ & _ & ->) | [_ ->]]; simpl; [|done].
    by rewrite lookup_insert_ne.
  - by rewrite fetch_bank_data_unknown.
Qed.

Lemma fetch_bank_data_ok (w : World) (now : string)
    (store : gmap string entry) (bank : string) :
  store_ok store -> store_ok (fetch_bank_data w now store bank).2.
Proof.
  intros Hok. destruct (BANK_CONFIG !! bank) as [c|] eqn:Hc.
  - destruct (fetch_bank_data_cases w now store bank c Hc)
      as [(df & _ & Hempty & ->) | [_ ->]]; simpl; [|done].
    intros b e Hb. destruct (decide (b = bank)) as [-> | Hne].
    + rewrite lookup_insert_eq in Hb. injection Hb as <-. simpl.
      split; [by rewrite Hc|]. unfold pd.to_dict_records. intros Hnil.
      apply map_eq_nil in Hnil. unfold pd.empty in Hempty.
      rewrite Hnil in Hempty. discriminate Hempty.
    + rewrite lookup_insert_ne in Hb by done. by apply Hok.
  - by rewrite fetch_bank_data_unknown.
Qed.

Lemma fetch_loop_store (w : World) (clock : nat -> string) (banks : list string) :
  forall (i : nat) (store : gmap string entry) (results : gmap string json),
    (fetch_loop w clock i store results banks).2 = one_by_one w clock i store banks.
Proof.
  induction banks as [|bank rest IH]; intros i store results; simpl; [done|].
  destruct (BANK_CONFIG !! bank) as [c|] eqn:Hc.
  - pose proof (fetch_bank_data_json w (clock i) store bank (mk_is_Some _ _ Hc)) as Hjson.
    destruct (fetch_bank_data w (clock i) store bank) as [result store1].
    simpl in *. rewrite Hjson. apply IH.
  - rewrite fetch_bank_data_unknown by done. simpl. apply IH.
Qed.

Lemma one_by_one_other (w : World) (clock : nat -> string) (banks : list string)
    (b : string) :
  b ∉ banks ->
  forall (i : nat) (store : gmap string entry),
    one_by_one w clock i store banks !! b = store !! b.
Proof.
  induction banks as [|bank rest IH]; intros Hb i store; simpl; [done|].
  apply not_elem_of_cons in Hb as [Hne Hb].
  rewrite IH by done. by apply fetch_bank_data_other.
Qed.

Lemma one_by_one_ok (w : World) (clock : nat -> string) (banks : list string) :
  forall (i : nat) (store : gmap string entry),
    store_ok store -> store_ok (one_by_one w clock i store banks).
Proof.
  induction banks as [|bank rest IH]; intros i store Hok; simpl; [done|].
  by apply IH, fetch_bank_data_ok.
Qed.

Lemma fetch_multiple_banks_store (w : World) (clock : nat -> string)
    (store : gmap string entry) (banks : list string) :
  (fetch_multiple_banks w clock store banks).2 = one_by_one w clock 0 store banks.
Proof.
  unfold fetch_multiple_banks.
  rewrite <- (fetch_loop_store w clock banks 0 store ∅).
  by destruct (fetch_loop w clock 0 store ∅ banks) as [[results|] store'].
Qed.

(** X4: what the program stores is well formed at all times: starting from
    results that hold entries for configured banks only, none with an
    empty list of records (as the empty results of a fresh process do),
    a fetch of one bank, a batch and a clearing all leave results of that
    kind. *)
Theorem store_ok_preserved (w : World) (now : string) (clock : nat -> string)
    (store : gmap string entry) (bank : string) (banks : list string) :
  store_ok store ->
  store_ok (fetch_bank_data w now store bank).2 /\
  store_ok (fetch_multiple_banks w clock store banks).2 /\
  store_ok (clear_data store).
Proof.
  intros Hok. split; [by apply fetch_bank_data_ok|]. split.
  - rewrite fetch_multiple_banks_store. by apply one_by_one_ok.
  - intros b e Hb. unfold clear_data in Hb. by rewrite lookup_empty in Hb.
Qed.

(** From the empty results, a batch of three banks of which one fails. *)
Lemma store_ok_preserved_witness :
  store_ok (fetch_multiple_banks Sample.batch_world (fun _ => Sample.noon) ∅
                                 ["NSB"; "HDFC"; "SMIB"]).2.
Proof.
  apply (store_ok_preserved Sample.batch_world Sample.noon (fun _ => Sample.noon)
           ∅ "NSB" ["NSB"; "HDFC"; "SMIB"]).
  intros b e Hb. by rewrite lookup_empty in Hb.
Defined.

(** X5: a batch stores what calling [fetch_bank_data] for each of its names
    in turn stores, names that are not configured included (the batch
    skips them, the single view refuses them: neither stores anything);
    the entry of a bank that is not named in the batch is left as it
    was. *)
Theorem batch_stores_one_by_one (w : World) (clock : nat -> string)
    (store : gmap string entry) (banks : list string) :
  (fetch_multiple_banks w clock store banks).2 = one_by_one w clock 0 store banks /\
  forall b : string,
    b ∉ banks ->
    (fetch_multiple_banks w clock store banks).2 !! b = store !! b.
Proof.
  split; [apply fetch_multiple_banks_store|].
  intros b Hb. rewrite fetch_multiple_banks_store. by apply one_by_one_other.
Qed.

(** ** The results and the summary of a batch *)

Lemma fetch_loop_unknown (w : World) (clock : nat -> string) (banks : list string)
    (b : string) :
  BANK_CONFIG !! b = None ->
  forall (i : nat) (store : gmap string entry) (results results' : gmap string json)
         (store' : gmap string entry),
    fetch_loop w clock i store results banks = (Some results', store') ->
    results' !! b = results !! b.
Proof.
  intros Hb. induction banks as [|bank rest IH];
    intros i store results results' store'; simpl.
  - by intros [= <- _].
  - destruct (BANK_CONFIG !! bank) as [c|] eqn:Hc; [|apply IH].
    destruct (fetch_bank_data w (clock i) store bank) as [result store1].
    destruct (get_json result) as [body|]; [|done].
    intros Hloop. rewrite (IH _ _ _ _ _ Hloop).
    apply lookup_insert_ne. intros ->. congruence.
Qed.

Lemma fetch_loop_size (w : World) (clock : nat -> string) (banks : list string) :
  forall (i : nat) (store : gmap string entry) (results results' : gmap string json)
         (store' : gmap string entry),
    fetch_loop w clock i store results banks = (Some results', store') ->
    size results' <= size results + length banks.
Proof.
  induction banks as [|bank rest IH];
    intros i store results results' store'; simpl.
  - intros [= <- _]. lia.
  - destruct (BANK_CONFIG !! bank) as [c|].
    + destruct (fetch_bank_data w (clock i) store bank) as [result store1].
      destruct (get_json result) as [body|]; [|done].
      intros Hloop. apply IH in Hloop.
      pose proof (map_size_insert bank body results) as Hsize.
      destruct (results !! bank); unfold id in Hsize; lia.
    + intros Hloop. apply IH in Hloop. lia.
Qed.

Lemma fetch_bank_data_status (w : World) (now : string)
    (store : gmap string entry) (bank : string) :
  resp_status (body_of (fetch_bank_data w now store bank).1) = "success"
  \/ resp_status (body_of (fetch_bank_data w now store bank).1) = "error".
Proof.
  destruct (BANK_CONFIG !! bank) as [c|] eqn:Hc.
  - destruct (fetch_bank_data_cases w now store bank c Hc)
      as [(df & _ & _ & ->) | [_ ->]]; simpl; [by left | by right].
  - rewrite fetch_bank_data_unknown by done. by right.
Qed.

Lemma count_status_total (l : list (string * json)) :
  Forall (fun kv => resp_status kv.2 = "success" \/ resp_status kv.2 = "error") l ->
  length (List.filter (fun kv => String.eqb (resp_status kv.2) "success") l)
  + length (List.filter (fun kv => String.eqb (resp_status kv.2) "error") l)
  = length l.
Proof.
  induction 1 as [|kv l [Hs | Hs] _ IH]; simpl; [done| |]; rewrite Hs; simpl; lia.
Qed.

(** X6: a batch always returns, and its answer adds up: the results hold one
    body per configured bank named in the batch and none for any other
    name; "requested" is the number of names given; every body counts as
    successful or as failed, so the two counts add up to the number of
    results, which is at most "requested" (names that are not configured
    or that repeat make it smaller). *)
Theorem batch_summary (w : World) (clock : nat -> string)
    (store : gmap string entry) (banks : list string) :
  exists (results : gmap string json) (sums : summary) (store' : gmap string entry),
    fetch_multiple_banks w clock store banks = (Some (results, sums), store') /\
    (forall b : string,
        is_Some (results !! b) <-> b ∈ banks /\ is_Some (BANK_CONFIG !! b)) /\
    requested sums = length banks /\
    successful sums + failed sums = size results /\
    successful sums + failed sums <= requested sums.
Proof.
  unfold fetch_multiple_banks.
  destruct (fetch_loop_results w clock banks 0 store ∅)
    as (results & store' & Hloop & Hres).
  rewrite Hloop. eexists _, _, _. split; [done|]. simpl.
  assert (forall b : string,
             is_Some (results !! b) <-> b ∈ banks /\ is_Some (BANK_CONFIG !! b)) as Hdom.
  { intros b. destruct (Hres b) as [Hin Hout]. split.
    - intros Hsome. destruct (decide (b ∈ banks)) as [Hb | Hb].
      + split; [done|]. destruct (BANK_CONFIG !! b) eqn:Hc; [done|].
        rewrite (fetch_loop_unknown _ _ _ _ Hc _ _ _ _ _ Hloop), lookup_empty in Hsome.
        by destruct Hsome.
      + rewrite Hout, lookup_empty in Hsome by done. by destruct Hsome.
    - intros [Hb Hknown]. rewrite (Hin Hb Hknown EmptyString ∅). done. }
  split; [exact Hdom|]. split; [done|].
  assert (count_status "success" results + count_status "error" results
          = size results) as Hsum.
  { unfold count_status. rewrite count_status_total; [apply length_map_to_list|].
    rewrite Forall_forall. intros [b body] Hb. simpl.
    apply elem_of_map_to_list in Hb.
    assert (is_Some (results !! b)) as Hsome by (by rewrite Hb).
    apply Hdom in Hsome as [Hin Hknown]. destruct (Hres b) as [Hval _].
    rewrite (Hval Hin Hknown EmptyString ∅) in Hb. injection Hb as <-.
    apply fetch_bank_data_status. }
  split; [exact Hsum|]. rewrite Hsum.
  pose proof (fetch_loop_size _ _ _ _ _ _ _ _ Hloop) as Hsize.
  rewrite map_size_empty in Hsize. lia.
Qed.

(** Four names, one of them not configured and one whose request fails:
    three results, two successful and one failed. *)
Example batch_summary_sample :
  (fun r => (size r.1, r.2)) <$>
    (fetch_multiple_banks Sample.batch_world (fun _ => Sample.noon) ∅
                          ["NSB"; "HDFC"; "SMIB"; "XYZ"]).1
  = Some (3, {| requested := 4; successful := 2; failed := 1 |}).
Proof. vm_compute. reflexivity. Qed.

(** ** The status report *)

Lemma bank_names_configured (b : string) :
  b ∈ bank_names <-> is_Some (BANK_CONFIG !! b).
Proof.
  split.
  - intros Hin. unfold bank_names in Hin.
    repeat (apply elem_of_cons in Hin as [-> | Hin]);
      try (vm_compute; eexists; reflexivity).
    by apply elem_of_nil in Hin.
  - intros Hsome. destruct (decide (b ∈ bank_names)) as [|Hnot]; [done|].
    assert (BANK_CONFIG !! b = None) as Hnone.
    { unfold BANK_CONFIG. apply not_elem_of_list_to_map. exact Hnot. }
    rewrite Hnone in Hsome. by destruct Hsome.
Qed.

Lemma bank_names_NoDup : NoDup bank_names.
Proof. apply (bool_decide_unpack _). vm_compute. reflexivity. Qed.

Lemma get_status_lookup (store : gmap string entry) (b : string) :
  status (get_status store) !! b
  = (fun _ => status_entry store b) <$> BANK_CONFIG !! b.
Proof.
  unfold get_status. cbn [status]. rewrite map_lookup_imap.
  by destruct (BANK_CONFIG !! b).
Qed.

Lemma status_entry_fetched (store : gmap string entry) (b : string) :
  st_fetched (status_entry store b) = true <-> is_Some (store !! b).
Proof.
  unfold status_entry. destruct (store !! b); simpl; [done|].
  split; [done | by intros [? ?]].
Qed.

Lemma fetched_dom (store : gmap string entry) :
  store_ok store ->
  dom (filter (fun kv : string * bank_status => st_fetched kv.2 = true)
              (status (get_status store)))
  = (dom store : gset string).
Proof.
  intros Hok. apply set_eq. intros b. rewrite !elem_of_dom. split.
  - intros [st Hst]. apply map_lookup_filter_Some in Hst as [Hst Hf].
    rewrite get_status_lookup in Hst.
    destruct (BANK_CONFIG !! b); [|done]. injection Hst as <-.
    by apply status_entry_fetched.
  - intros Hsome. exists (status_entry store b).
    apply map_lookup_filter_Some. split.
    + rewrite get_status_lookup. destruct Hsome as [e He].
      destruct (Hok b e He) as [[c ->] _]. done.
    + by apply status_entry_fetched.
Qed.

(** X7: the status report reads the stored results: it has an entry for
    each of the five configured banks and for no other name; a bank is
    reported as fetched exactly when there is an entry for it, with the
    time of that entry and the number of its records, and as not
    fetched, without time and with 0 records, otherwise; the number of
    fetched banks never exceeds the total, and for results the program
    itself stored it is the number of entries. *)
Theorem status_report_reads_store (store : gmap string entry) :
  (forall b : string,
      is_Some (status (get_status store) !! b) <-> is_Some (BANK_CONFIG !! b)) /\
  size (status (get_status store)) = 5 /\
  total_banks (get_status store) = 5 /\
  (forall (b : string) (st : bank_status),
      status (get_status store) !! b = Some st ->
      (st_fetched st = true <-> is_Some (store !! b)) /\
      st_timestamp st = timestamp <$> store !! b /\
      st_record_count st = from_option (fun e => length (data e)) 0 (store !! b)) /\
  fetched_banks (get_status store) <= total_banks (get_status store) /\
  (store_ok store -> fetched_banks (get_status store) = size store).
Proof.
  assert (size (status (get_status store)) = 5) as Hsize.
  { rewrite <- (size_dom (D := gset string)).
    assert (dom (status (get_status store)) = (dom BANK_CONFIG : gset string)) as ->.
    { apply set_eq. intros b. rewrite !elem_of_dom, get_status_lookup.
      by rewrite fmap_is_Some. }
    rewrite size_dom. reflexivity. }
  split.
  { intros b. rewrite get_status_lookup. by rewrite fmap_is_Some. }
  split; [exact Hsize|]. split; [reflexivity|]. split.
  { clear Hsize. intros b st Hst. rewrite get_status_lookup in Hst.
    destruct (BANK_CONFIG !! b); [|discriminate Hst]. injection Hst as <-.
    split; [apply status_entry_fetched|].
    unfold status_entry. destruct (store !! b) as [e|]; split; reflexivity. }
  split.
  { change (fetched_banks (get_status store))
      with (size (filter (fun kv : string * bank_status => st_fetched kv.2 = true)
                         (status (get_status store)))).
    change (total_banks (get_status store)) with (size BANK_CONFIG).
    etrans; [apply map_subseteq_size, map_filter_subseteq|].
    rewrite Hsize. reflexivity. }
  intros Hok.
  change (fetched_banks (get_status store))
    with (size (filter (fun kv : string * bank_status => st_fetched kv.2 = true)
                       (status (get_status store)))).
  rewrite <- (size_dom (D := gset string)), (fetched_dom _ Hok). apply size_dom.
Qed.

(** After NSB was fetched: one bank fetched out of five, with its two
    records. *)
Example status_sample :
  fetched_banks (get_status Sample.nsb_stored) = 1 /\
  status (get_status Sample.nsb_stored) !! "NSB"
  = Some {| st_fetched := true; st_timestamp := Some Sample.noon;
            st_record_count := 2 |}.
Proof. split; vm_compute; reflexivity. Qed.

(** X8: a fetch that answers "success" shows in the next status report: the
    bank is reported as fetched, at the time of the fetch, with as many
    records as the success message counts, and that is at least one; the
    report on every other bank is what it was before the fetch. *)
Theorem status_after_fetch (w : World) (now : string)
    (store : gmap string entry) (bank : string) :
  resp_status (body_of (fetch_bank_data w now store bank).1) = "success" ->
  exists n : nat,
    resp_message (body_of (fetch_bank_data w now store bank).1)
    = SuccessfullyFetched n /\
    0 < n /\
    status (get_status (fetch_bank_data w now store bank).2) !! bank
    = Some {| st_fetched := true; st_timestamp := Some now; st_record_count := n |} /\
    forall other : string,
      other <> bank ->
      status_entry (fetch_bank_data w now store bank).2 other
      = status_entry store other /\
      status (get_status (fetch_bank_data w now store bank).2) !! other
      = status (get_status store) !! other.
Proof.
  intros Hs. destruct (BANK_CONFIG !! bank) as [c|] eqn:Hc.
  2: { rewrite fetch_bank_data_unknown in Hs by done. discriminate Hs. }
  destruct (fetch_bank_data_cases w now store bank c Hc)
    as [(df & _ & Hempty & Hfetch) | [_ Hfetch]]; rewrite Hfetch in *.
  2: { discriminate Hs. }
  exists (length (pd.to_dict_records df)). split; [done|].
  split.
  { unfold pd.to_dict_records. rewrite length_map. unfold pd.empty in Hempty.
    destruct (pd.rows df); [discriminate Hempty | simpl; lia]. }
  split.
  { rewrite get_status_lookup, Hc. simpl.
    unfold status_entry. by rewrite lookup_insert_eq. }
  intros other Hne.
  assert (status_entry
            (<[bank := {| data := pd.to_dict_records df; timestamp := now |}]> store)
            other
          = status_entry store other) as Hentry.
  { unfold status_entry. by rewrite lookup_insert_ne. }
  split; [exact Hentry|]. cbn [snd]. by rewrite !get_status_lookup, Hentry.
Qed.

(** SMIB fetched at noon: reported with its two records. *)
Lemma status_after_fetch_witness :
  status (get_status (fetch_bank_data Sample.batch_world Sample.noon ∅ "SMIB").2)
    !! "SMIB"
  = Some {| st_fetched := true; st_timestamp := Some Sample.noon;
            st_record_count := 2 |}.
Proof.
  destruct (status_after_fetch Sample.batch_world Sample.noon ∅ "SMIB" eq_refl)
    as (n & Hn & _ & Hin & _).
  vm_compute in Hn. injection Hn as <-. exact Hin.
Defined.

(** ** The sheets of an export *)

Lemma str_prefix_length (n : nat) (s : string) :
  String.length (str_prefix n s) = Nat.min n (String.length s).
Proof.
  revert s. induction n as [|n IH]; intros s; [done|].
  destruct s as [|c s]; simpl; [done|]. by rewrite IH.
Qed.

Lemma str_prefix_is_prefix (n : nat) (s : string) :
  exists rest : string, s = str_prefix n s +:+ rest.
Proof.
  revert s. induction n as [|n IH]; intros s; [by exists s|].
  destruct s as [|c s]; [by exists EmptyString|].
  destruct (IH s) as [rest Hrest]. exists rest.
  change (String c s = String c (str_prefix n s +:+ rest)). by f_equal.
Qed.

Lemma str_prefix_short (n : nat) (s : string) :
  String.length s <= n -> str_prefix n s = s.
Proof.
  revert s. induction n as [|n IH]; intros s Hlen.
  - destruct s; [done | simpl in Hlen; lia].
  - destruct s as [|c s]; simpl in *; [done|]. rewrite IH; [done | lia].
Qed.

Lemma sheet_name_configured (bank : string) :
  is_Some (BANK_CONFIG !! bank) -> sheet_name bank = bank.
Proof.
  intros Hknown. apply bank_names_configured in Hknown.
  unfold bank_names in Hknown.
  repeat (apply elem_of_cons in Hknown as [-> | Hknown]); try reflexivity.
  by apply elem_of_nil in Hknown.
Qed.

Lemma omap_total {A B : Type} (f : A -> option B) (g : A -> B) (l : list A) :
  Forall (fun x => f x = Some (g x)) l -> omap f l = map g l.
Proof.
  induction 1 as [|x l Hx _ IH]; simpl; [done|].
  rewrite Hx. simpl. f_equal. exact IH.
Qed.

(** X9: the name of a sheet is the bank name cut after 31 characters: it is
    never longer than 31 characters, it is the beginning of the bank
    name, and a bank name of at most 31 characters is kept as it is.  No
    sheet is written for an entry without records. *)
Theorem sheet_names_fit (store : gmap string entry) (bank : string) :
  String.length (sheet_name bank) <= 31 /\
  (exists rest : string, bank = sheet_name bank +:+ rest) /\
  (String.length bank <= 31 -> sheet_name bank = bank) /\
  (forall (name : string) (rs : list pd.dict),
      (name, rs) ∈ export_sheets store ->
      String.length name <= 31 /\ rs <> [] /\
      exists (b : string) (e : entry),
        store !! b = Some e /\ name = sheet_name b /\ rs = data e).
Proof.
  unfold sheet_name. split; [rewrite str_prefix_length; lia|].
  split; [apply str_prefix_is_prefix|]. split; [apply str_prefix_short|].
  intros name rs Hin. unfold export_sheets in Hin.
  apply list_elem_of_omap in Hin as ([b e] & Hbe & Hsheet).
  apply elem_of_map_to_list in Hbe. simpl in Hsheet.
  destruct (data e) as [|r rs'] eqn:Hdata; [done|].
  injection Hsheet as <- <-.
  split; [unfold sheet_name; rewrite str_prefix_length; lia|].
  split; [done|]. by exists b, e.
Qed.

(** X10: for results the program itself stored, an export writes one sheet
    per stored bank, named by the full name of the bank and holding the
    stored records of that bank; no two sheets have the same name, there
    are as many sheets as entries, and when something is stored there is
    a sheet to write. *)
Theorem export_sheets_of_store (store : gmap string entry) :
  store_ok store ->
  export_sheets store = map (fun kv => (kv.1, data kv.2)) (map_to_list store) /\
  (forall (b : string) (rs : list pd.dict),
      (b, rs) ∈ export_sheets store
      <-> exists e : entry, store !! b = Some e /\ data e = rs) /\
  NoDup (map fst (export_sheets store)) /\
  length (export_sheets store) = size store /\
  (nothing_to_export store = false -> export_sheets store <> []).
Proof.
  intros Hok.
  assert (export_sheets store = map (fun kv => (kv.1, data kv.2)) (map_to_list store))
    as Hsheets.
  { unfold export_sheets. apply omap_total. rewrite Forall_forall.
    intros [b e] Hbe. apply elem_of_map_to_list in Hbe.
    destruct (Hok b e Hbe) as [Hknown Hdata]. simpl.
    rewrite (sheet_name_configured b Hknown).
    destruct (data e); [done | done]. }
  split; [exact Hsheets|]. rewrite Hsheets. split.
  { intros b rs. rewrite list_elem_of_fmap. split.
    - intros ([b' e] & [= -> ->] & Hbe). exists e.
      by apply elem_of_map_to_list in Hbe.
    - intros (e & He & <-). exists (b, e). split; [done|].
      by apply elem_of_map_to_list. }
  split.
  { rewrite map_map. simpl. apply NoDup_fst_map_to_list. }
  split; [by rewrite length_map, length_map_to_list|].
  intros Hsome Hnil. apply map_eq_nil, map_to_list_empty_iff in Hnil.
  unfold nothing_to_export in Hsome. by rewrite bool_decide_eq_true_2 in Hsome.
Qed.

(** The results after NSB was fetched: one sheet, called "NSB". *)
Lemma export_sheets_of_store_witness :
  export_sheets Sample.nsb_stored = [("NSB", data Sample.nsb_entry)].
Proof.
  destruct (export_sheets_of_store Sample.nsb_stored) as [-> _].
  - intros b e Hb. unfold Sample.nsb_stored in Hb.
    apply lookup_singleton_Some in Hb as [<- <-].
    split; [vm_compute; eexists; reflexivity | discriminate].
  - vm_compute. reflexivity.
Defined.

(** ** The values the structural parser hands over *)

Lemma reconcile_Forall (P : string -> Prop) (n : nat) (row : list string) :
  P EmptyString -> Forall P row -> Forall P (reconcile n row).
Proof.
  intros Hempty Hrow. unfold reconcile.
  destruct (length row <? n); [|destruct (n <? length row)].
  - apply Forall_app. split; [done|]. by apply Forall_replicate.
  - by apply Forall_take.
  - done.
Qed.

(** Cell by cell: within the header width a reconciled row has the cell
    of the row where there is one and the empty string where there is
    none. *)
Lemma reconcile_lookup (n : nat) (row : list string) (j : nat) :
  j < n -> reconcile n row !! j = Some (default EmptyString (row !! j)).
Proof.
  intros Hj. unfold reconcile.
  destruct (length row <? n) eqn:Hshort; [|destruct (n <? length row) eqn:Hlong].
  - destruct (decide (j < length row)) as [Hin | Hout].
    + rewrite lookup_app_l by done.
      destruct (lookup_lt_is_Some_2 row j Hin) as [x Hx]. by rewrite Hx.
    + rewrite lookup_app_r by lia.
      rewrite (lookup_ge_None_2 row j) by lia. simpl.
      apply Nat.ltb_lt in Hshort.
      apply lookup_replicate_2. lia.
  - apply Nat.ltb_lt in Hlong. rewrite lookup_take_lt by done.
    destruct (lookup_lt_is_Some_2 row j ltac:(lia)) as [x Hx]. by rewrite Hx.
  - apply Nat.ltb_ge in Hshort. apply Nat.ltb_ge in Hlong.
    destruct (lookup_lt_is_Some_2 row j ltac:(lia)) as [x Hx]. by rewrite Hx.
Qed.

(** X11: every cell of the frame the structural parser returns is a string,
    never a number or the missing value, and that string neither starts
    nor ends with white space and holds no line break; the labels of the
    frame are free of white space at both ends as well.  Every row of the
    frame comes from one of the rows the parser visits in the selected
    table: in each column it holds the text of that row's data cell at
    the same position, and the empty string where the row has no data
    cell there, so the cells added to a short row are empty strings. *)
Theorem structural_values_clean (w : World) (u : string) (pos : nat)
    (df : pd.DataFrame) :
  (extract_hdfc_table w u pos).2 = Some df ->
  (exists labels : list string,
      pd.columns df = pd.Index labels /\
      Forall (fun l => Py.trimmed l = true) labels) /\
  Forall (fun r : nat * list pd.value =>
            length r.2 = pd.ncols (pd.columns df) /\
            Forall (fun v => exists s : string,
                        v = pd.Str s /\ Py.trimmed s = true /\
                        Py.contains Py.newline s = false) r.2)
         (pd.rows df) /\
  exists (soup : document) (table : bs4.node),
    requests_get w u = Some soup /\
    bs4.find_all "table" soup !! pos = Some table /\
    Forall (fun r : nat * list pd.value =>
              exists tr : bs4.node,
                tr ∈ body_trs table /\
                forall j : nat,
                  j < length (hdfc_headers table) ->
                  r.2 !! j
                  = Some (pd.Str (default EmptyString (row_cells tr !! j))))
           (pd.rows df).
Proof.
  intros Hdf.
  destruct (requests_get w u) as [soup|] eqn:Hget.
  2: { unfold extract_hdfc_table in Hdf. by rewrite Hget in Hdf. }
  destruct (bs4.find_all "table" soup !! pos) as [table|] eqn:Hpos.
  2: { unfold extract_hdfc_table in Hdf. rewrite Hget in Hdf. simpl in Hdf.
       destruct (length (bs4.find_all "table" soup) <=? pos); [done|].
       by rewrite Hpos in Hdf. }
  rewrite (extract_hdfc_table_selected _ _ _ _ _ Hget Hpos) in Hdf.
  injection Hdf as <-. rewrite clean_rows. simpl. split.
  { eexists. split; [done|]. unfold hdfc_headers. apply Forall_map, Forall_true.
    intros th. apply get_text_strip_trimmed. }
  rewrite enumerate_snd, filter_strings.
  split.
  { apply (Forall_enumerate
             (fun cells : list pd.value =>
                length cells = length (hdfc_headers table) /\
                Forall (fun v => exists s : string,
                            v = pd.Str s /\ Py.trimmed s = true /\
                            Py.contains Py.newline s = false) cells)).
    apply Forall_map. rewrite List.Forall_forall. intros row Hrow.
    apply List.filter_In in Hrow as [Hrow _].
    rewrite hdfc_rows_map in Hrow. apply List.in_map_iff in Hrow as (tr & <- & _).
    split; [by rewrite length_map, reconcile_length|].
    apply Forall_map.
    apply (reconcile_Forall
             (fun s => exists s' : string,
                  pd.Str s = pd.Str s' /\ Py.trimmed s' = true /\
                  Py.contains Py.newline s' = false)).
    - by exists EmptyString.
    - unfold row_cells. apply Forall_map, Forall_true. intros cell.
      exists (cell_text cell).
      split; [done|]. split; [apply cell_text_trimmed | apply cell_text_one_line]. }
  exists soup, table. split; [done|]. split; [done|].
  apply (Forall_enumerate
           (fun cells : list pd.value =>
              exists tr : bs4.node,
                tr ∈ body_trs table /\
                forall j : nat,
                  j < length (hdfc_headers table) ->
                  cells !! j
                  = Some (pd.Str (default EmptyString (row_cells tr !! j))))).
  apply Forall_map. rewrite List.Forall_forall. intros row Hrow.
  apply List.filter_In in Hrow as [Hrow _].
  rewrite hdfc_rows_map in Hrow. apply List.in_map_iff in Hrow as (tr & <- & Htr).
  exists tr. split; [by apply list_elem_of_In|].
  intros j Hj.
  change (map pd.Str (reconcile (length (hdfc_headers table)) (row_cells tr)))
    with (pd.Str <$> reconcile (length (hdfc_headers table)) (row_cells tr)).
  by rewrite list_lookup_fmap, reconcile_lookup.
Qed.

(** The sample page: three rows of four strings each; the first comes
    from a row of two data cells, and its last two cells are empty
    strings. *)
Lemma structural_values_clean_witness :
  exists df : pd.DataFrame,
    (extract_hdfc_table (Sample.serving Sample.hdfc_url Sample.rates_page)
                        Sample.hdfc_url 1).2 = Some df /\
    Forall (fun r : nat * list pd.value => length r.2 = 4) (pd.rows df) /\
    exists (soup : document) (table : bs4.node),
      requests_get (Sample.serving Sample.hdfc_url Sample.rates_page)
                   Sample.hdfc_url = Some soup /\
      bs4.find_all "table" soup !! 1 = Some table /\
      Forall (fun r : nat * list pd.value =>
                exists tr : bs4.node,
                  tr ∈ body_trs table /\
                  forall j : nat,
                    j < length (hdfc_headers table) ->
                    r.2 !! j
                    = Some (pd.Str (default EmptyString (row_cells tr !! j))))
             (pd.rows df).
Proof.
  eexists. split; [reflexivity|].
  destruct (structural_values_clean
              (Sample.serving Sample.hdfc_url Sample.rates_page)
              Sample.hdfc_url 1 _ eq_refl) as (_ & Hrows & Hcells).
  split; [|exact Hcells].
  eapply Forall_impl; [exact Hrows|]. intros r [Hlen _]. exact Hlen.
Defined.

(** ** Fetching a bank again *)

(** X12: fetching a bank a second time, possibly in a changed world: the
    answer is the one a first fetch would get; when it is a "success" the
    stored results are those that fetch alone would leave, nothing of the
    earlier entry remains; when it is not, they are those the earlier
    fetch left. *)
Theorem refetch_replaces (w1 w2 : World) (t1 t2 : string)
    (store : gmap string entry) (bank : string) :
  (fetch_bank_data w2 t2 (fetch_bank_data w1 t1 store bank).2 bank).1
  = (fetch_bank_data w2 t2 store bank).1 /\
  (resp_status (body_of (fetch_bank_data w2 t2 store bank).1) = "success" ->
   (fetch_bank_data w2 t2 (fetch_bank_data w1 t1 store bank).2 bank).2
   = (fetch_bank_data w2 t2 store bank).2) /\
  (resp_status (body_of (fetch_bank_data w2 t2 store bank).1) <> "success" ->
   (fetch_bank_data w2 t2 (fetch_bank_data w1 t1 store bank).2 bank).2
   = (fetch_bank_data w1 t1 store bank).2).
Proof.
  split; [apply fetch_bank_data_body|].
  destruct (BANK_CONFIG !! bank) as [c|] eqn:Hc.
  2: { rewrite !fetch_bank_data_unknown by done. simpl.
       split; [intros Hs; discriminate Hs | done]. }
  destruct (fetch_bank_data_cases w2 t2 store bank c Hc)
    as [(df & Hdf & Hempty & Hfetch) | [Hfail Hfetch]].
  - destruct (fetch_bank_data_cases w2 t2 (fetch_bank_data w1 t1 store bank).2 bank c Hc)
      as [(df' & Hdf' & _ & Hfetch') | [Hfail' _]].
    + assert (df' = df) as -> by congruence.
      rewrite Hfetch, Hfetch'. simpl. split; [|done]. intros _.
      destruct (fetch_bank_data_cases w1 t1 store bank c Hc)
        as [(df1 & _ & _ & ->) | [_ ->]]; simpl; [|done].
      apply insert_insert_eq.
    + exfalso. destruct Hfail' as [Hnone | (df' & Hdf' & Hempty')]; congruence.
  - rewrite Hfetch. simpl. split; [intros Hs; discriminate Hs|]. intros _.
    destruct (fetch_bank_data_cases w2 t2 (fetch_bank_data w1 t1 store bank).2 bank c Hc)
      as [(df' & Hdf' & Hempty' & _) | [_ ->]]; [|done].
    exfalso. destruct Hfail as [Hnone | (df & Hdf & Hempty)]; congruence.
Qed.

(** SMIB fetched at noon, then again later: the entry carries the later
    time; then with the network down: the entry stays. *)
Example refetch_sample :
  timestamp <$>
    (fetch_bank_data Sample.batch_world "2024-01-01T18:00:00"
       (fetch_bank_data Sample.batch_world Sample.noon ∅ "SMIB").2 "SMIB").2 !! "SMIB"
  = Some "2024-01-01T18:00:00" /\
  timestamp <$>
    (fetch_bank_data Sample.offline "2024-01-01T18:00:00"
       (fetch_bank_data Sample.batch_world Sample.noon ∅ "SMIB").2 "SMIB").2 !! "SMIB"
  = Some Sample.noon.
Proof. split; vm_compute; reflexivity. Qed.
